(** * wordcloudgenv5.py: the themed button, the settings store and the
      generation worker, embedded and checked against the specification.

    Conventions of the embedding.
    - A Python [str] is a [string]; a character stands for the code point of
      the same number (U+0000 .. U+00FF).  [str.strip], [str.lower],
      [str.split] and [str.join] are written out for that range.
    - A widget is a record of the attributes the methods read and write;
      a method is a function from the record to the record.
    - Calls that leave the program (Tk variable reads, dialogs, files, the
      word-cloud library, threads) are appended to a log, each with the
      thread that made it. *)

From Stdlib Require Import ZArith QArith Ascii String.
From stdpp Require Import base strings list gmap.

Set Warnings "-register-all".

Local Open Scope string_scope.
Local Open Scope list_scope.
Local Open Scope Z_scope.

(** ** Python string primitives *)
Module Py.

(** [bool(s)] for a [str]: the empty string is false. *)
Definition truthy (s : string) : bool :=
  match s with
  | EmptyString => false
  | String _ _ => true
  end.

(** [c.isspace()] on U+0000 .. U+00FF: TAB, LF, VT, FF, CR, the four
    separators FS GS RS US, SPACE, NEL and NBSP. *)
Definition isspace (c : ascii) : bool :=
  let n := N_of_ascii c in
  ((9 <=? n) && (n <=? 13) || (28 <=? n) && (n <=? 32)
   || (n =? 133) || (n =? 160))%N.

(** [c.lower()] on U+0000 .. U+00FF: A-Z and the Latin-1 capitals
    (U+00C0 .. U+00DE without the multiplication sign) move up by 32. *)
Definition lower_char (c : ascii) : ascii :=
  let n := N_of_ascii c in
  if ((65 <=? n) && (n <=? 90)
      || (192 <=? n) && (n <=? 222) && negb (n =? 215))%N
  then ascii_of_N (n + 32) else c.

Fixpoint lower (s : string) : string :=
  match s with
  | EmptyString => EmptyString
  | String c s' => String (lower_char c) (lower s')
  end.

Fixpoint lstrip (s : string) : string :=
  match s with
  | EmptyString => EmptyString
  | String c s' => if isspace c then lstrip s' else s
  end.

Fixpoint rstrip (s : string) : string :=
  match s with
  | EmptyString => EmptyString
  | String c s' =>
      match rstrip s' with
      | EmptyString => if isspace c then EmptyString else String c EmptyString
      | r => String c r
      end
  end.

(** No character of [s] is other than whitespace. *)
Fixpoint blank (s : string) : bool :=
  match s with
  | EmptyString => true
  | String c s' => isspace c && blank s'
  end.

(** [s.strip()] *)
Definition strip (s : string) : string := lstrip (rstrip s).

Definition LF : ascii := ascii_of_N 10.

(** [s.split("\n")]: never empty, one more piece than there are line feeds. *)
Fixpoint split_lines (s : string) : list string :=
  match s with
  | EmptyString => [EmptyString]
  | String c s' =>
      if Ascii.eqb c LF then EmptyString :: split_lines s'
      else match split_lines s' with
           | [] => [String c EmptyString]
           | l :: ls => String c l :: ls
           end
  end.

(** ["\n".join(words)] *)
Fixpoint join_lines (words : list string) : string :=
  match words with
  | [] => EmptyString
  | [w] => w
  | w :: ws => w +:+ String LF (join_lines ws)
  end.

End Py.

(** ** The custom rounded button (class [RoundedButton]) *)
Module RoundedButton.

(** A font as the program writes it: [("Segoe UI", 11, "bold")]. *)
Inductive font_spec :=
| Font (family : string) (size : Z) (style : list string).

(** What the canvas holds after a repaint. *)
Inductive item :=
| Polygon (points : list Z) (fill : string) (smooth : bool)
| Text (x y : Q) (text : string) (font : font_spec) (fill : string).

(** A callback registered with [self.after(ms, ...)]. *)
Inductive timer :=
| AfterDraw (ms : Z).        (* self.after(ms, self.draw) *)

Section Widget.
(** The type of the callbacks a button can be given as [command]. *)
Context {C : Type}.

Record t := mk {
  radius : Z;
  command : option C;
  text : string;
  font : font_spec;
  disabled : bool;
  fg : string;
  bg_color : string;
  hover_color : string;
  pressed_color : string;
  disabled_color : string;
  bg : string;                    (* the canvas's own background *)
  winfo_width : Z;
  winfo_height : Z;
  canvas : list item;
  timers : list timer
}.

Definition with_canvas (its : list item) (b : t) : t :=
  mk (radius b) (command b) (text b) (font b) (disabled b) (fg b) (bg_color b)
     (hover_color b) (pressed_color b) (disabled_color b) (bg b)
     (winfo_width b) (winfo_height b) its (timers b).

Definition with_timers (ts : list timer) (b : t) : t :=
  mk (radius b) (command b) (text b) (font b) (disabled b) (fg b) (bg_color b)
     (hover_color b) (pressed_color b) (disabled_color b) (bg b)
     (winfo_width b) (winfo_height b) (canvas b) ts.

Definition with_disabled (d : bool) (b : t) : t :=
  mk (radius b) (command b) (text b) (font b) d (fg b) (bg_color b)
     (hover_color b) (pressed_color b) (disabled_color b) (bg b)
     (winfo_width b) (winfo_height b) (canvas b) (timers b).

(** The geometry manager giving the widget its size. *)
Definition with_size (w h : Z) (b : t) : t :=
  mk (radius b) (command b) (text b) (font b) (disabled b) (fg b) (bg_color b)
     (hover_color b) (pressed_color b) (disabled_color b) (bg b)
     w h (canvas b) (timers b).

(** [__init__]: the widget as the constructor leaves it.  It is not laid
    out yet: Tk reports 1 for [winfo_width] and [winfo_height] until the
    geometry manager has run. *)
Definition init (text : string) (command : option C) (radius : Z)
    (font : font_spec) : t :=
  mk radius command text font false "white" "#4CAF50" "#5a9a5d" "#3e8e41"
     "#a0a0a0" "" 1 1 [] [].

(** The colour [draw] paints with: [bg_color], unless the button is
    disabled, unless a non-empty [color] was passed. *)
Definition current_color (b : t) (color : option string) : string :=
  if disabled b then disabled_color b
  else match color with
       | Some c => if Py.truthy c then c else bg_color b
       | None => bg_color b
       end.

Definition points (b : t) : list Z :=
  let x1 := 0 in let y1 := 0 in
  let x2 := winfo_width b in let y2 := winfo_height b in
  let r := radius b in
  [ x1 + r; y1; x2 - r; y1; x2; y1; x2; y1 + r; x2; y2 - r; x2; y2;
    x2 - r; y2; x1 + r; y2; x1; y2; x1; y2 - r; x1; y1 + r; x1; y1 ].

(** The polygon and the label [draw] creates. *)
Definition painted (color : option string) (b : t) : list item :=
  [ Polygon (points b) (current_color b color) true;
    Text (winfo_width b # 2) (winfo_height b # 2) (text b) (font b) (fg b) ].

(** [draw(self, color=None)] *)
Definition draw (color : option string) (b : t) : t :=
  if (winfo_width b <=? 1) || (winfo_height b <=? 1) then
    with_timers (timers b ++ [AfterDraw 10]) b
  else
    with_canvas (painted color b) b.

(** The event handlers return the widget as the handler's own repaint
    leaves it, and the commands they called.  A command is returned, not
    run: what it then does to the window, this button included, is the
    command's and is found with the application. *)
Definition _on_enter (b : t) : t * list C :=
  if disabled b then (b, []) else (draw (Some (hover_color b)) b, []).

Definition _on_leave (b : t) : t * list C :=
  if disabled b then (b, []) else (draw None b, []).

Definition _on_press (b : t) : t * list C :=
  if disabled b then (b, []) else (draw (Some (pressed_color b)) b, []).

Definition _on_release (b : t) : t * list C :=
  if disabled b then (b, [])
  else (draw (Some (hover_color b)) b,
        match command b with Some c => [c] | None => [] end).

Definition configure_colors
    (fg' bg' hover pressed disabled' parent_bg : string) (b : t) : t :=
  draw None
    (mk (radius b) (command b) (text b) (font b) (disabled b) fg' bg' hover
        pressed disabled' parent_bg (winfo_width b) (winfo_height b)
        (canvas b) (timers b)).

Definition disable (b : t) : t := draw None (with_disabled true b).
Definition enable (b : t) : t := draw None (with_disabled false b).

(** The four pointer events the constructor binds. *)
Inductive pointer := Enter | Leave | Button1 | ButtonRelease1.

Definition handle (e : pointer) (b : t) : t * list C :=
  match e with
  | Enter => _on_enter b
  | Leave => _on_leave b
  | Button1 => _on_press b
  | ButtonRelease1 => _on_release b
  end.

(** What can happen to a button: a pointer event from Tk, a call of
  [disable] or [enable] by the application, the geometry manager
  giving it a size, or a pending [after] callback coming due. *)
Inductive action :=
| Pointer (e : pointer)
| Disable
| Enable
| Layout (w h : Z)
| Timeout.

Definition fire_timer (b : t) : t :=
  match timers b with
  | [] => b
  | AfterDraw _ :: ts => draw None (with_timers ts b)
  end.

Definition step (a : action) (b : t) : t * list C :=
  match a with
  | Pointer e => handle e b
  | Disable => (disable b, [])
  | Enable => (enable b, [])
  | Layout w h => (with_size w h b, [])
  | Timeout => (fire_timer b, [])
  end.

(** Run a sequence of actions; the commands called, in order. *)
Fixpoint run (acts : list action) (b : t) : t * list C :=
  match acts with
  | [] => (b, [])
  | a :: acts' =>
      let '(b1, cs1) := step a b in
      let '(b2, cs2) := run acts' b1 in
      (b2, cs1 ++ cs2)
  end.

(** The state before the [i]-th action of [acts]. *)
Definition state_at (acts : list action) (i : nat) (b : t) : t :=
  fst (run (take i acts) b).

(** Whether the [i]-th action of [acts] called the command. *)
Definition fires_at (acts : list action) (i : nat) (b : t) : bool :=
  match acts !! i with
  | Some a => negb (Nat.eqb (length (snd (step a (state_at acts i b)))) 0)
  | None => false
  end.

(** The fields a repaint without colour reads are the same in both widgets. *)
Definition same_look (b b' : t) : Prop :=
  radius b' = radius b /\ text b' = text b /\ font b' = font b
  /\ disabled b' = disabled b /\ fg b' = fg b /\ bg_color b' = bg_color b
  /\ disabled_color b' = disabled_color b
  /\ winfo_width b' = winfo_width b /\ winfo_height b' = winfo_height b.

End Widget.
Arguments t : clear implicits.

End RoundedButton.

(** ** The application (class [WordCloudApp]) *)
Module App.

(** *** Exceptions, values and the file system *)

(** The classes of the exceptions the program meets; all derive from
    [Exception]. *)
Inductive exc_class :=
| FileNotFoundError
| PermissionError
| IsADirectoryError
| UnicodeDecodeError
| JSONDecodeError
| ValueError
| AttributeError
| OtherException.

(** An exception: its class and [str(e)]. *)
Record exc := Exc { exc_type : exc_class; exc_str : string }.

(** The values [json.load] returns (numbers are integers here). *)
Inductive pyval :=
| PyNone
| PyBool (b : bool)
| PyInt (z : Z)
| PyStr (s : string)
| PyList (l : list pyval)
| PyDict (d : list (string * pyval)).

(** [d[k]] on the items of a dict. *)
Fixpoint dict_lookup (k : string) (d : list (string * pyval)) : option pyval :=
  match d with
  | [] => None
  | (k', v) :: d' => if String.eqb k k' then Some v else dict_lookup k d'
  end.

(** [settings.get(key, default)]: a dict answers; any other value has no
    attribute [get]. *)
Definition type_name (v : pyval) : string :=
  match v with
  | PyNone => "NoneType"
  | PyBool _ => "bool"
  | PyInt _ => "int"
  | PyStr _ => "str"
  | PyList _ => "list"
  | PyDict _ => "dict"
  end.

Definition get (settings : pyval) (key : string) (default : pyval) : exc + pyval :=
  match settings with
  | PyDict d => inr (match dict_lookup key d with Some v => v | None => default end)
  | _ => inl (Exc AttributeError
                ("'" +:+ type_name settings +:+ "' object has no attribute 'get'"))
  end.

(** A path on disk holds text, or opening it raises (a directory, a file
    without permission, bytes that do not decode). *)
Inductive fentry :=
| Regular (content : string)
| Raises (e : exc).

(** The arguments of the [WordCloud(...)] constructor call. *)
Record WordCloudArgs := mkArgs {
  stopwords : gset string;
  background_color : string;
  width : Z;
  height : Z;
  max_words : Z;
  collocations : bool
}.

(** The dict [_threaded_generate] hands to [on_generation_complete]. *)
Inductive result :=
| Success (path : string)          (* {"status": "success", "path": path} *)
| Error (message : string).        (* {"status": "error", "message": message} *)

Inductive thread := MainThread | WorkerThread.

(** Calls that leave the program. *)
Inductive call :=
| VarGet (name : string)                     (* tk.StringVar.get() *)
| TextGet                                    (* exclusion_text.get("1.0", tk.END) *)
| Instate                                    (* dark_mode_switch.instate(['selected']) *)
| FileRead (path : string)
| FileWrite (path : string)
| WordCloudCall (args : WordCloudArgs) (text : string)
| SaveFig (path : string)
| ShowInfo (title message : string)
| ShowError (title message : string)
| ThreadStart                                (* Thread(target=self._threaded_generate).start() *)
| After0 (r : result).                       (* self.after(0, self.on_generation_complete, r) *)

(** The commands the buttons are created with. *)
Inductive cmd :=
| select_input_file_cmd
| set_output_file_cmd
| import_exclusion_list_cmd
| clear_exclusion_list_cmd
| start_generation_thread_cmd.

(** The attributes of the window the methods below read and write. *)
Record WordCloudApp := mkApp {
  settings_path : string;
  input_file_path : string;                  (* tk.StringVar *)
  output_file_path : string;                 (* tk.StringVar *)
  exclusion_text : string;                   (* the text area, without Tk's final newline *)
  dark_mode_switch : bool;                   (* the check button is selected *)
  input_path_label : string;
  output_path_label : string;
  status_label : string;
  generate_button : RoundedButton.t cmd
}.

(** The window, the disk, the running thread and the calls made so far. *)
Record Machine := mkMachine {
  self : WordCloudApp;
  disk : gmap string fentry;
  current : thread;
  log : list (thread * call)
}.

Definition with_self (a : WordCloudApp) (m : Machine) : Machine :=
  mkMachine a (disk m) (current m) (log m).

Definition with_disk (d : gmap string fentry) (m : Machine) : Machine :=
  mkMachine (self m) d (current m) (log m).

Definition with_current (t : thread) (m : Machine) : Machine :=
  mkMachine (self m) (disk m) t (log m).

Definition logc (c : call) (m : Machine) : Machine :=
  mkMachine (self m) (disk m) (current m) (log m ++ [(current m, c)]).

Definition set_input (path label : string) (a : WordCloudApp) : WordCloudApp :=
  mkApp (settings_path a) path (output_file_path a) (exclusion_text a)
        (dark_mode_switch a) label (output_path_label a) (status_label a)
        (generate_button a).

Definition set_output (path label : string) (a : WordCloudApp) : WordCloudApp :=
  mkApp (settings_path a) (input_file_path a) path (exclusion_text a)
        (dark_mode_switch a) (input_path_label a) label (status_label a)
        (generate_button a).

Definition set_exclusion_text (s : string) (a : WordCloudApp) : WordCloudApp :=
  mkApp (settings_path a) (input_file_path a) (output_file_path a) s
        (dark_mode_switch a) (input_path_label a) (output_path_label a)
        (status_label a) (generate_button a).

Definition set_status (s : string) (a : WordCloudApp) : WordCloudApp :=
  mkApp (settings_path a) (input_file_path a) (output_file_path a)
        (exclusion_text a) (dark_mode_switch a) (input_path_label a)
        (output_path_label a) s (generate_button a).

Definition set_generate_button (b : RoundedButton.t cmd) (a : WordCloudApp) : WordCloudApp :=
  mkApp (settings_path a) (input_file_path a) (output_file_path a)
        (exclusion_text a) (dark_mode_switch a) (input_path_label a)
        (output_path_label a) (status_label a) b.

(** [self.default_exclusion_words] *)
Definition default_exclusion_words : list string :=
  [ "author"; "post"; "content"; "reddit"; "score"; "url"; "subreddit";
    "title"; "Steam"; "Comment"; "https"; "Comments"; "u"; "account";
    "comments"; "csgomarketforum"; "SteamScams"; "scam"; "trade"; "support";
    "png"; "game"; "csgo"; "redd"; "got"; "skin"; "item"; "S";
    "will"; "items"; "one"; "someone"; "know"; "scammed"; "guy"; "people" ].

(** [exclusion_text.get("1.0", tk.END)]: Tk ends the text with a newline. *)
Definition text_get (a : WordCloudApp) : string :=
  exclusion_text a +:+ String Py.LF EmptyString.

(** [exclusion_text.insert(tk.END, s)]: before Tk's final newline. *)
Definition text_insert_end (s : string) (a : WordCloudApp) : WordCloudApp :=
  set_exclusion_text (exclusion_text a +:+ s) a.

(** [exclusion_text.delete("1.0", tk.END)] *)
Definition text_delete_all (a : WordCloudApp) : WordCloudApp :=
  set_exclusion_text EmptyString a.

(** *** The methods *)
Section Methods.

(** The libraries the program calls, as it finds them installed. *)
Context {Image : Type}.
(** [wordcloud.STOPWORDS] *)
Variable STOPWORDS : gset string.
(** [WordCloud(...).generate(text)] *)
Variable WordCloud_generate : WordCloudArgs -> string -> exc + Image.
(** [plt.figure], [plt.imshow], [plt.axis], [plt.savefig(path, ...)] and
    [plt.close]: the disk afterwards, or the exception one of them raised. *)
Variable plt_savefig : Image -> string -> gmap string fentry -> exc + gmap string fentry.
(** [json.load] on the text of a file, [json.dump(_, f, indent=4)] as text. *)
Variable json_loads : string -> exc + pyval.
Variable json_dumps : pyval -> string.
(** The text of the [FileNotFoundError] the platform raises for a path. *)
Variable enoent : string -> string.

(** [open(path, 'r').read()] *)
Definition open_read (path : string) (d : gmap string fentry) : exc + string :=
  match d !! path with
  | None => inl (Exc FileNotFoundError (enoent path))
  | Some (Regular s) => inr s
  | Some (Raises e) => inl e
  end.

(** [open(path, 'w').write(content)] *)
Definition open_write (path content : string) (d : gmap string fentry)
  : exc + gmap string fentry :=
  match d !! path with
  | Some (Raises e) => inl e
  | _ => inr (<[path := Regular content]> d)
  end.

(** [_update_generate_button_state]; [and] reads the output path only
    when the input path is non-empty. *)
Definition _update_generate_button_state (m : Machine) : Machine :=
  let m1 := logc (VarGet "input_file_path") m in
  if Py.truthy (input_file_path (self m1)) then
    let m2 := logc (VarGet "output_file_path") m1 in
    if Py.truthy (output_file_path (self m2)) then
      with_self (set_generate_button
                   (RoundedButton.enable (generate_button (self m2))) (self m2)) m2
    else
      with_self (set_generate_button
                   (RoundedButton.disable (generate_button (self m2))) (self m2)) m2
  else
    with_self (set_generate_button
                 (RoundedButton.disable (generate_button (self m1))) (self m1)) m1.

(** [select_input_file]; [path] is what the file dialog returned (empty
    when the user cancelled). *)
Definition select_input_file (path : string) (m : Machine) : Machine :=
  if Py.truthy path then
    _update_generate_button_state
      (with_self (set_input path ("Input: " +:+ path) (self m)) m)
  else m.

(** [set_output_file] *)
Definition set_output_file (path : string) (m : Machine) : Machine :=
  if Py.truthy path then
    _update_generate_button_state
      (with_self (set_output path ("Output: " +:+ path) (self m)) m)
  else m.

(** [import_exclusion_list]; [path] is what the file dialog returned. *)
Definition import_exclusion_list (path : string) (m : Machine) : Machine :=
  if negb (Py.truthy path) then m
  else
    let m1 := logc (FileRead path) m in
    match open_read path (disk m1) with
    | inr new_words =>
        let m2 := logc TextGet m1 in
        let current_text := Py.strip (text_get (self m2)) in
        let m3 :=
          if Py.truthy current_text then
            with_self (text_insert_end (String Py.LF new_words) (self m2)) m2
          else
            with_self (text_insert_end new_words (self m2)) m2 in
        logc (ShowInfo "Success" "Exclusion list imported successfully.") m3
    | inl e =>
        logc (ShowError "Error" ("Failed to import file: " +:+ exc_str e)) m1
    end.

(** [clear_exclusion_list] *)
Definition clear_exclusion_list (m : Machine) : Machine :=
  with_self (text_delete_all (self m)) m.

(** [_load_settings] *)
Definition _load_settings (m : Machine) : (exc + pyval) * Machine :=
  let m1 := logc (FileRead (settings_path (self m))) m in
  match open_read (settings_path (self m1)) (disk m1) with
  | inr text =>
      match json_loads text with
      | inr v => (inr v, m1)
      | inl e =>
          match exc_type e with
          | FileNotFoundError | JSONDecodeError => (inr (PyDict []), m1)
          | _ => (inl e, m1)
          end
      end
  | inl e =>
      match exc_type e with
      | FileNotFoundError | JSONDecodeError => (inr (PyDict []), m1)
      | _ => (inl e, m1)
      end
  end.

(** What [__init__] takes from the settings: [initial_exclusion_list] and
    [is_dark_mode]. *)
Definition load_initial (m : Machine) : (exc + pyval * pyval) * Machine :=
  match _load_settings m with
  | (inl e, m1) => (inl e, m1)
  | (inr settings, m1) =>
      match get settings "exclusion_list"
                (PyStr (Py.join_lines default_exclusion_words)) with
      | inl e => (inl e, m1)
      | inr initial_exclusion_list =>
          match get settings "dark_mode" (PyBool false) with
          | inl e => (inl e, m1)
          | inr is_dark_mode => (inr (initial_exclusion_list, is_dark_mode), m1)
          end
      end
  end.

(** [_save_settings] *)
Definition _save_settings (m : Machine) : (exc + unit) * Machine :=
  let m1 := logc Instate m in
  let m2 := logc TextGet m1 in
  let settings :=
    PyDict [ ("dark_mode", PyBool (dark_mode_switch (self m2)));
             ("exclusion_list", PyStr (Py.strip (text_get (self m2)))) ] in
  let m3 := logc (FileWrite (settings_path (self m2))) m2 in
  match open_write (settings_path (self m3)) (json_dumps settings) (disk m3) with
  | inr d => (inr tt, with_disk d m3)
  | inl e => (inl e, m3)
  end.

(** [start_generation_thread]: the thread it starts is run by
    [run_worker] below. *)
Definition start_generation_thread (m : Machine) : Machine :=
  let m1 := with_self (set_status "Status: Processing..." (self m)) m in
  let m2 := with_self (set_generate_button
                         (RoundedButton.disable (generate_button (self m1)))
                         (self m1)) m1 in
  logc ThreadStart m2.

(** The list comprehension of [generate_word_cloud]. *)
Definition custom_exclusion_list (text : string) : list string :=
  map (fun word => Py.lower (Py.strip word))
      (filter (fun word => Is_true (Py.truthy (Py.strip word)))
              (Py.split_lines text)).

(** [generate_word_cloud] *)
Definition generate_word_cloud (m : Machine) : (exc + string) * Machine :=
  let m1 := logc (VarGet "input_file_path") m in
  let input_path := input_file_path (self m1) in
  let m2 := logc (VarGet "output_file_path") m1 in
  let output_path := output_file_path (self m2) in
  let m3 := logc (FileRead input_path) m2 in
  match open_read input_path (disk m3) with
  | inl e => (inl e, m3)
  | inr text =>
      let m4 := logc TextGet m3 in
      let custom := custom_exclusion_list (text_get (self m4)) in
      let stopwords := STOPWORDS ∪ list_to_set custom in
      let args := mkArgs stopwords "white" 1600 800 200 false in
      let m5 := logc (WordCloudCall args text) m4 in
      match WordCloud_generate args text with
      | inl e => (inl e, m5)
      | inr wordcloud =>
          let m6 := logc (SaveFig output_path) m5 in
          match plt_savefig wordcloud output_path (disk m6) with
          | inl e => (inl e, m6)
          | inr d => (inr output_path, with_disk d m6)
          end
      end
  end.

(** [_threaded_generate]: [except Exception] catches every class above. *)
Definition _threaded_generate (m : Machine) : Machine :=
  let '(r, m1) := generate_word_cloud m in
  let result :=
    match r with
    | inr output_path => Success output_path
    | inl e => Error (exc_str e)
    end in
  logc (After0 result) m1.

(** [on_generation_complete] *)
Definition on_generation_complete (r : result) (m : Machine) : Machine :=
  let m1 :=
    match r with
    | Success path =>
        logc (ShowInfo "Success"
                ("Word cloud saved successfully to:" +:+ String Py.LF path))
             (with_self (set_status ("Status: Success! Saved to " +:+ path) (self m)) m)
    | Error message =>
        logc (ShowError "Error" ("An unexpected error occurred: " +:+ message))
             (with_self (set_status ("Status: Error - " +:+ message) (self m)) m)
    end in
  _update_generate_button_state m1.

(** The interpreter running the started thread's target to its end. *)
Definition run_worker (m : Machine) : Machine :=
  with_current (current m) (_threaded_generate (with_current WorkerThread m)).

(** The result the worker is shown below to hand over, read off the
    three calls that can raise. *)
Definition outcome (m : Machine) : result :=
  let args := mkArgs (STOPWORDS ∪ list_to_set (custom_exclusion_list (text_get (self m))))
                     "white" 1600 800 200 false in
  match open_read (input_file_path (self m)) (disk m) with
  | inl e => Error (exc_str e)
  | inr text =>
      match WordCloud_generate args text with
      | inl e => Error (exc_str e)
      | inr wordcloud =>
          match plt_savefig wordcloud (output_file_path (self m)) (disk m) with
          | inl e => Error (exc_str e)
          | inr _ => Success (output_file_path (self m))
          end
      end
  end.

(** The calls the worker is shown below to make, in order. *)
Definition worker_calls (m : Machine) : list call :=
  let args := mkArgs (STOPWORDS ∪ list_to_set (custom_exclusion_list (text_get (self m))))
                     "white" 1600 800 200 false in
  [ VarGet "input_file_path"; VarGet "output_file_path";
    FileRead (input_file_path (self m)) ]
  ++ match open_read (input_file_path (self m)) (disk m) with
     | inl _ => []
     | inr text =>
         [ TextGet; WordCloudCall args text ]
         ++ match WordCloud_generate args text with
            | inl _ => []
            | inr _ => [ SaveFig (output_file_path (self m)) ]
            end
     end
  ++ [ After0 (outcome m) ].

End Methods.

(** The calls [m'] made after [m]. *)
Definition new_calls (m m' : Machine) : list (thread * call) :=
  drop (length (log m)) (log m').

(** A read of the window's path variables or of the text area. *)
Definition is_ui_read (c : call) : bool :=
  match c with
  | VarGet _ | TextGet => true
  | _ => false
  end.

(** A read of one of the two path variables. *)
Definition is_var_get (c : call) : bool :=
  match c with
  | VarGet _ => true
  | _ => false
  end.

(** The [WordCloud] calls among [calls], and the results handed over
    with [self.after]. *)
Definition wordcloud_calls (calls : list (thread * call))
  : list (WordCloudArgs * string) :=
  omap (fun tc => match snd tc with
                  | WordCloudCall a t => Some (a, t)
                  | _ => None
                  end) calls.

Definition deliveries (calls : list (thread * call)) : list result :=
  omap (fun tc => match snd tc with
                  | After0 r => Some r
                  | _ => None
                  end) calls.

Definition is_main (t : thread) : bool :=
  match t with MainThread => true | WorkerThread => false end.

(** Every read of the window's state in [calls] is made by the main thread. *)
Definition ui_reads_on_main (calls : list (thread * call)) : bool :=
  forallb (fun tc => negb (is_ui_read (snd tc)) || is_main (fst tc)) calls.

End App.

(** ** Scenarios checked against the specification *)
Module Scenario.
Import RoundedButton.

(** The claim that a command is called only by a complete click: when the
    [i]-th action calls it, an earlier action [j] was a press and the
    button was enabled from [j] to [i]. *)
Section Click.
Context {C : Type}.

Definition enabled_between (acts : list action) (j i : nat) (b : t C) : bool :=
  forallb (fun k => negb (disabled (state_at acts k b))) (seq j (S i - j)).

Definition full_click_at (acts : list action) (i : nat) (b : t C) : bool :=
  existsb (fun j => match acts !! j with
                    | Some (Pointer Button1) => enabled_between acts j i b
                    | _ => false
                    end)
          (seq 0 i).

Definition fires_only_on_full_click (acts : list action) (b : t C) : bool :=
  forallb (fun i => implb (fires_at acts i b) (full_click_at acts i b))
          (seq 0 (length acts)).

End Click.

(** [self.font_style] and [self.font_style_bold] *)
Definition font_style : font_spec := Font "Segoe UI" 10 [].
Definition font_style_bold : font_spec := Font "Segoe UI" 11 ["bold"].

(** A laid-out button with a command, as the generate button is once the
    window is shown. *)
Definition sample_button : t App.cmd :=
  with_size 200 40
    (init "3. Generate Word Cloud" (Some App.start_generation_thread_cmd) 10
       font_style_bold).

(** The text of the platform's error for a missing file. *)
Definition enoent (path : string) : string :=
  "[Errno 2] No such file or directory: '" +:+ path +:+ "'".

(** The window as [__init__] leaves it when there are no settings: no
    paths, the default exclusion words, the generate button disabled. *)
Definition fresh_app : App.WordCloudApp :=
  App.mkApp "/home/user/.wordcloud_app_settings.json" "" ""
    (Py.join_lines App.default_exclusion_words) false
    "No input file selected." "No output path set." "Ready"
    (disable (init "3. Generate Word Cloud"
                (Some App.start_generation_thread_cmd) 10 font_style_bold)).

Definition fresh_machine : App.Machine :=
  App.mkMachine fresh_app ∅ App.MainThread [].

(** A window whose text area holds a single space, and a word file. *)
Definition blank_text_machine : App.Machine :=
  App.mkMachine (App.set_exclusion_text " " fresh_app)
    {[ "words.txt" := App.Regular "foo" ]} App.MainThread [].

(** Stand-ins for the word-cloud and plotting libraries: three stop
    words; the words of a text are its pieces between spaces; an image is
    the text it was made from, and a text none of whose words is left once
    the stop words are taken out is refused; saving writes the image to
    the path. *)
Definition STOPWORDS : gset string := {[ "the"; "and"; "a" ]}.

Fixpoint words (s : string) : list string :=
  match s with
  | EmptyString => [EmptyString]
  | String c s' =>
      if Ascii.eqb c " "%char then EmptyString :: words s'
      else match words s' with
           | [] => [String c EmptyString]
           | w :: ws => String c w :: ws
           end
  end.

Definition kept_words (stopwords : gset string) (text : string) : list string :=
  List.filter
    (fun w => Py.truthy w && negb (bool_decide (Py.lower w ∈ stopwords)))
    (words text).

Definition WordCloud_generate (args : App.WordCloudArgs) (text : string)
  : App.exc + string :=
  match kept_words (App.stopwords args) text with
  | [] => inl (App.Exc App.ValueError
                 "We need at least 1 word to plot a word cloud, got 0.")
  | _ :: _ => inr text
  end.

Definition plt_savefig (image path : string) (d : gmap string App.fentry)
  : App.exc + gmap string App.fentry :=
  inr (<[path := App.Regular image]> d).

(** A window with both paths chosen and three lines of exclusion text. *)
Definition ready_machine : App.Machine :=
  App.mkMachine
    (App.mkApp "/home/user/.wordcloud_app_settings.json"
       "notes.txt" "cloud.png"
       ("Cat" +:+ String Py.LF (String Py.LF "  Dog "))
       false "Input: notes.txt" "Output: cloud.png" "Ready"
       (with_size 200 40
          (init "3. Generate Word Cloud"
             (Some App.start_generation_thread_cmd) 10 font_style_bold)))
    {[ "notes.txt" := App.Regular "cat cat dog" ]} App.MainThread [].

(** A window with both paths chosen whose input holds words that are no
    stop words. *)
Definition fruit_machine : App.Machine :=
  App.mkMachine
    (App.mkApp "/home/user/.wordcloud_app_settings.json"
       "fruit.txt" "cloud.png"
       ("Cat" +:+ String Py.LF (String Py.LF "  Dog "))
       false "Input: fruit.txt" "Output: cloud.png" "Ready"
       (with_size 200 40
          (init "3. Generate Word Cloud"
             (Some App.start_generation_thread_cmd) 10 font_style_bold)))
    {[ "fruit.txt" := App.Regular "apple banana apple" ]} App.MainThread [].

(** A settings file whose bytes do not decode, and one that holds a JSON
    list. *)
Definition undecodable_machine : App.Machine :=
  App.mkMachine fresh_app
    {[ "/home/user/.wordcloud_app_settings.json" :=
         App.Raises
           (App.Exc App.UnicodeDecodeError
              "'utf-8' codec can't decode byte 0xff in position 0: invalid start byte") ]}
    App.MainThread [].

Definition list_settings_machine : App.Machine :=
  App.mkMachine fresh_app
    {[ "/home/user/.wordcloud_app_settings.json" := App.Regular "[]" ]}
    App.MainThread [].

(** The same window when the input file has been removed. *)
Definition input_gone_machine : App.Machine :=
  App.with_disk ∅ ready_machine.

(** A stand-in for the [json] module that knows one document and the
    text it is written as; any other text is malformed. *)
Definition json_dumps_one (text : string) (v : App.pyval) : string := text.

Definition json_loads_one (text : string) (doc : App.pyval) (s : string)
  : App.exc + App.pyval :=
  if String.eqb s text then inr doc
  else inl (App.Exc App.JSONDecodeError
              "Expecting value: line 1 column 1 (char 0)").

(** A window in dark mode whose text area holds two words between blank
    lines, ready to be closed. *)
Definition closing_machine : App.Machine :=
  App.mkMachine
    (App.mkApp "/home/user/.wordcloud_app_settings.json" "" ""
       (String Py.LF ("spam" +:+ String Py.LF ("eggs " +:+ String Py.LF "")))
       true "No input file selected." "No output path set." "Ready"
       (disable (init "3. Generate Word Cloud"
                   (Some App.start_generation_thread_cmd) 10 font_style_bold)))
    ∅ App.MainThread [].

(** The document [_save_settings] writes for [closing_machine]. *)
Definition closing_doc : App.pyval :=
  App.PyDict [ ("dark_mode", App.PyBool true);
               ("exclusion_list", App.PyStr ("spam" +:+ String Py.LF "eggs")) ].

(** A settings file that is not JSON. *)
Definition malformed_machine : App.Machine :=
  App.mkMachine fresh_app
    {[ "/home/user/.wordcloud_app_settings.json" := App.Regular "{dark_mode" ]}
    App.MainThread [].

End Scenario.

(** ** The two themes and how they reach a button *)
Module Theme.

(** The dicts [self.light_theme] and [self.dark_theme]. *)
Record palette := mkPalette {
  bg : string;
  fg : string;
  text_bg : string;
  text_fg : string;
  status_bg : string;
  button_fg : string;
  button_bg : string;
  button_hover : string;
  button_pressed : string;
  button_disabled : string
}.

Definition light_theme : palette :=
  mkPalette "#f0f0f0" "#000000" "#ffffff" "#000000" "#e0e0e0"
            "#ffffff" "#4CAF50" "#5cb85c" "#3e8e41" "#d0d0d0".

Definition dark_theme : palette :=
  mkPalette "#2e2e2e" "#d0d0d0" "#3c3c3c" "#d0d0d0" "#3c3c3c"
            "#ffffff" "#4f4f4f" "#6a6a6a" "#2c2c2c" "#202020".

(** The two keys [apply_theme] pairs the buttons with. *)
Inductive parent_bg_key := text_bg_key | bg_key.

Definition parent_bg (theme : palette) (key : parent_bg_key) : string :=
  match key with
  | text_bg_key => text_bg theme
  | bg_key => bg theme
  end.

(** [toggle_theme]: the theme chosen from the state of the switch. *)
Definition active_theme (selected : bool) : palette :=
  if selected then dark_theme else light_theme.

(** The body of the loop that ends [apply_theme], for one button. *)
Definition theme_button {C : Type} (theme : palette) (key : parent_bg_key)
    (b : RoundedButton.t C) : RoundedButton.t C :=
  RoundedButton.configure_colors
    (button_fg theme) (button_bg theme) (button_hover theme)
    (button_pressed theme) (button_disabled theme) (parent_bg theme key) b.

End Theme.

(** ** Closing the window *)
Module Closing.

(** Whether [self.destroy()] was reached. *)
Inductive window := StillOpen | Destroyed.

(** [_on_closing]: an exception of [_save_settings] leaves the handler
    before [destroy]. *)
Definition _on_closing (json_dumps : App.pyval -> string) (m : App.Machine)
  : window * App.Machine :=
  match App._save_settings json_dumps m with
  | (inr _, m1) => (Destroyed, m1)
  | (inl _, m1) => (StillOpen, m1)
  end.

End Closing.

(** ** Measures on sequences of actions *)
Module Trace.
Import RoundedButton.

(** A call of [disable] or [enable]. *)
Definition is_toggle (a : action) : bool :=
  match a with
  | Disable | Enable => true
  | _ => false
  end.

Definition is_release (a : action) : bool :=
  match a with
  | Pointer ButtonRelease1 => true
  | _ => false
  end.

(** The number of button releases in [acts]. *)
Definition releases (acts : list action) : nat :=
  length (List.filter is_release acts).

(** No character of [s] is a line feed. *)
Fixpoint one_line (s : string) : bool :=
  match s with
  | EmptyString => true
  | String c s' => negb (Ascii.eqb c Py.LF) && one_line s'
  end.

End Trace.

(** ** Properties of the string primitives *)
Module PyFacts.
Import Py.

Lemma rstrip_app_LF (s : string) :
  rstrip (s +:+ String LF EmptyString) = rstrip s.
Proof.
  induction s as [|c s IH]; simpl.
  - reflexivity.
  - rewrite IH. reflexivity.
Qed.

Lemma strip_app_LF (s : string) :
  strip (s +:+ String LF EmptyString) = strip s.
Proof. unfold strip. now rewrite rstrip_app_LF. Qed.

Lemma strip_empty : strip EmptyString = EmptyString.
Proof. reflexivity. Qed.

Lemma app_empty_r (s : string) : s +:+ EmptyString = s.
Proof.
  induction s as [|c s IH]; [reflexivity|].
  change (String c (s +:+ EmptyString) = String c s). now f_equal.
Qed.

Lemma truthy_true (s : string) : truthy s = true <-> s <> EmptyString.
Proof. destruct s; simpl; split; intros; congruence. Qed.

Lemma truthy_false (s : string) : truthy s = false <-> s = EmptyString.
Proof. destruct s; simpl; split; intros; congruence. Qed.

End PyFacts.

(** ** Properties of the button *)
Module ButtonFacts.
Import RoundedButton.

Section Facts.
Context {C : Type}.
Implicit Types (b : t C) (color : option string).

Lemma disabled_draw color b : disabled (draw color b) = disabled b.
Proof. unfold draw. destruct (_ || _); reflexivity. Qed.

Lemma command_draw color b : command (draw color b) = command b.
Proof. unfold draw. destruct (_ || _); reflexivity. Qed.

Lemma disabled_disable b : disabled (disable b) = true.
Proof. unfold disable. now rewrite disabled_draw. Qed.

Lemma disabled_enable b : disabled (enable b) = false.
Proof. unfold enable. now rewrite disabled_draw. Qed.

Lemma handle_disabled (e : pointer) b :
  disabled b = true -> handle e b = (b, []).
Proof.
  intros Hd. destruct e; simpl;
    unfold _on_enter, _on_leave, _on_press, _on_release; now rewrite Hd.
Qed.

Lemma run_pointer_disabled (evs : list pointer) b :
  disabled b = true -> run (map Pointer evs) b = (b, []).
Proof.
  intros Hd. induction evs as [|e evs IH]; simpl.
  - reflexivity.
  - rewrite (handle_disabled e b Hd), IH. reflexivity.
Qed.

Lemma draw_unsized color b :
  winfo_width b <= 1 \/ winfo_height b <= 1 ->
  draw color b = with_timers (timers b ++ [AfterDraw 10]) b.
Proof.
  intros H. unfold draw.
  destruct (winfo_width b <=? 1) eqn:Hw; [reflexivity|].
  destruct (winfo_height b <=? 1) eqn:Hh; [reflexivity|].
  apply Z.leb_gt in Hw, Hh. lia.
Qed.

Lemma draw_sized color b :
  1 < winfo_width b -> 1 < winfo_height b ->
  draw color b = with_canvas (painted color b) b.
Proof.
  intros Hw Hh. unfold draw.
  apply Z.leb_gt in Hw, Hh. now rewrite Hw, Hh.
Qed.

End Facts.

Section TraceFacts.
Context {C : Type}.
Implicit Types (b : t C) (a : action) (acts : list action).

Lemma command_step a b : command (fst (step a b)) = command b.
Proof.
  destruct a as [e| | | |]; simpl.
  - destruct e; simpl;
      unfold _on_enter, _on_leave, _on_press, _on_release;
      destruct (disabled b); simpl; rewrite ?command_draw; reflexivity.
  - unfold disable. now rewrite command_draw.
  - unfold enable. now rewrite command_draw.
  - reflexivity.
  - unfold fire_timer. destruct (timers b) as [|[ms] ts]; [reflexivity|].
    now rewrite command_draw.
Qed.

Lemma command_run acts b : command (fst (run acts b)) = command b.
Proof.
  revert b. induction acts as [|a acts IH]; intros b; simpl; [reflexivity|].
  destruct (step a b) as [b1 cs1] eqn:Hs.
  specialize (IH b1). destruct (run acts b1) as [b2 cs2]; simpl in *.
  rewrite IH. change b1 with (fst (b1, cs1)). rewrite <- Hs. apply command_step.
Qed.

Lemma step_fired a b :
  snd (step a b) =
  match a with
  | Pointer ButtonRelease1 =>
      if disabled b then []
      else match command b with Some c => [c] | None => [] end
  | _ => []
  end.
Proof.
  destruct a as [e| | | |]; simpl; try reflexivity.
  destruct e; simpl; unfold _on_enter, _on_leave, _on_press, _on_release;
    destruct (disabled b); reflexivity.
Qed.

End TraceFacts.

(** C7, as the code has it.  A single action calls the command exactly
    when it is a button release that reaches the button while it is not
    disabled (and a command was given); a press, an enter or a leave never
    calls it, and whether a press came before the release is not looked at.
    After [disable()] every sequence of pointer events leaves the button as
    it was and calls nothing; only [enable()] ends that. *)
Theorem C7_command_fires_on_enabled_release {C : Type} (b : t C) :
  (forall a : action,
     snd (step a b) =
     match a with
     | Pointer ButtonRelease1 =>
         if disabled b then []
         else match command b with Some c => [c] | None => [] end
     | _ => []
     end)
  /\ (forall (acts : list action) (i : nat),
        fires_at acts i b =
        match acts !! i with
        | Some (Pointer ButtonRelease1) =>
            negb (disabled (state_at acts i b))
            && match command b with Some _ => true | None => false end
        | _ => false
        end)
  /\ disabled (disable b) = true
  /\ (forall evs : list pointer,
        run (map Pointer evs) (disable b) = (disable b, []))
  /\ disabled (enable b) = false.
Proof.
  split; [intros a; apply step_fired|].
  split.
  - intros acts i. unfold fires_at.
    destruct (acts !! i) as [a|] eqn:Ha; [|reflexivity].
    rewrite step_fired.
    assert (Hc : command (state_at acts i b) = command b)
      by (unfold state_at; apply command_run).
    destruct a as [e| | | |]; try reflexivity.
    destruct e; try reflexivity.
    rewrite Hc. destruct (disabled (state_at acts i b)); simpl; [reflexivity|].
    destruct (command b); reflexivity.
  - split; [apply disabled_disable|].
    split; [|apply disabled_enable].
    intros evs. apply run_pointer_disabled, disabled_disable.
Qed.

(** C7, as the specification words it, fails.  The generate button is
    disabled, the user presses it, the finished generation enables it, the
    user lets go: the release calls the command although the press came
    while the button was disabled.  A release with no press at all calls it
    as well. *)
Lemma C7_release_without_enabled_press_fires :
  snd (run [Disable; Pointer Button1; Enable; Pointer ButtonRelease1]
           Scenario.sample_button) = [App.start_generation_thread_cmd]
  /\ Scenario.fires_only_on_full_click
       [Disable; Pointer Button1; Enable; Pointer ButtonRelease1]
       Scenario.sample_button = false
  /\ snd (run [Pointer ButtonRelease1] Scenario.sample_button)
     = [App.start_generation_thread_cmd]
  /\ Scenario.fires_only_on_full_click [Pointer ButtonRelease1]
       Scenario.sample_button = false.
Proof. repeat split; vm_compute; reflexivity. Qed.

Section TimerFacts.
Context {C : Type}.
Implicit Types (b : t C).

Lemma painted_same_look b b' color :
  same_look b b' -> painted color b' = painted color b.
Proof.
  intros (Hr & Ht & Hf & Hd & Hfg & Hbg & Hdc & Hw & Hh).
  unfold painted, points, current_color.
  now rewrite Hr, Ht, Hf, Hd, Hfg, Hbg, Hdc, Hw, Hh.
Qed.

Lemma fire_timer_painted b b' :
  1 < winfo_width b -> 1 < winfo_height b ->
  same_look b b' ->
  timers b' <> [] \/ canvas b' = painted None b ->
  same_look b (fire_timer b') /\ canvas (fire_timer b') = painted None b.
Proof.
  intros Hw Hh Hs Hc. unfold fire_timer.
  destruct (timers b') as [|[ms] ts] eqn:Ht.
  - split; [exact Hs|]. destruct Hc as [Hc|Hc]; [congruence | exact Hc].
  - assert (Hs' : same_look b (with_timers ts b')) by exact Hs.
    destruct Hs as (Hr & Htx & Hf & Hd & Hfg & Hbg & Hdc & Hw' & Hh').
    rewrite draw_sized by (simpl; lia).
    split; [repeat split; assumption|].
    simpl. now apply painted_same_look.
Qed.

Lemma iter_fire_timer_painted (k : nat) b b' :
  1 < winfo_width b -> 1 < winfo_height b ->
  same_look b b' ->
  timers b' <> [] \/ canvas b' = painted None b ->
  canvas (Nat.iter (S k) fire_timer b') = painted None b.
Proof.
  intros Hw Hh Hs Hc.
  assert (H : same_look b (Nat.iter (S k) fire_timer b')
              /\ canvas (Nat.iter (S k) fire_timer b') = painted None b).
  { induction k as [|k IH].
    - simpl. now apply fire_timer_painted.
    - destruct IH as [IHs IHc].
      change (Nat.iter (S (S k)) fire_timer b')
        with (fire_timer (Nat.iter (S k) fire_timer b')).
      apply fire_timer_painted; auto. }
  apply H.
Qed.

End TimerFacts.

(** C10.  A [draw(color)] made before the widget has a size (width or
    height at most 1) paints nothing and only registers [self.draw], without
    argument, to run after 10 ms; the outcome is the same whatever [color]
    was.  Once the widget has a size, the pending callbacks repaint it with
    the disabled colour if the button is disabled and with the normal
    background otherwise, however many of them have run: the colour first
    asked for is lost. *)
Theorem C10_deferred_draw_drops_color
    {C : Type} (b : t C) (color : option string) (w h : Z) (k : nat) :
  winfo_width b <= 1 \/ winfo_height b <= 1 ->
  1 < w -> 1 < h ->
  draw color b = with_timers (timers b ++ [AfterDraw 10]) b
  /\ canvas (draw color b) = canvas b
  /\ draw color b = draw None b
  /\ canvas (Nat.iter (S k) fire_timer (with_size w h (draw color b))) =
     [ Polygon (points (with_size w h b))
               (if disabled b then disabled_color b else bg_color b) true;
       Text (w # 2) (h # 2) (text b) (font b) (fg b) ].
Proof.
  intros Hsz Hw Hh.
  rewrite (draw_unsized color b Hsz), (draw_unsized None b Hsz).
  do 3 (split; [reflexivity|]).
  rewrite (iter_fire_timer_painted k (with_size w h b)); simpl; try lia.
  - unfold painted, current_color; simpl. destruct (disabled b); reflexivity.
  - repeat split.
  - left. destruct (timers b); discriminate.
Qed.

Lemma C10_witness :
  canvas (Nat.iter 1 fire_timer
            (with_size 200 40
               (draw (Some "#5a9a5d")
                  (init "Import" (Some App.import_exclusion_list_cmd) 5
                     Scenario.font_style)))) =
  [ Polygon [5; 0; 195; 0; 200; 0; 200; 5; 200; 35; 200; 40;
             195; 40; 5; 40; 0; 40; 0; 35; 0; 5; 0; 0] "#4CAF50" true;
    Text (200 # 2) (40 # 2) "Import" Scenario.font_style "white" ].
Proof.
  apply (C10_deferred_draw_drops_color
           (init "Import" (Some App.import_exclusion_list_cmd) 5
              Scenario.font_style)
           (Some "#5a9a5d") 200 40 0); simpl; first [lia | left; lia].
Defined.

End ButtonFacts.

(** ** Properties of the application *)
Module AppFacts.
Import App.

Lemma new_calls_app (m m' : Machine) (k : list (thread * call)) :
  log m' = log m ++ k -> new_calls m m' = k.
Proof. intros H. unfold new_calls. rewrite H. apply drop_app_length. Qed.

(** *** The enablement of the generate button *)

Lemma update_disabled (m : Machine) :
  RoundedButton.disabled (generate_button (self (_update_generate_button_state m)))
  = negb (Py.truthy (input_file_path (self m))
          && Py.truthy (output_file_path (self m))).
Proof.
  unfold _update_generate_button_state; simpl.
  destruct (Py.truthy (input_file_path (self m))); simpl;
    [destruct (Py.truthy (output_file_path (self m))); simpl|];
    first [apply ButtonFacts.disabled_enable | apply ButtonFacts.disabled_disable].
Qed.

Lemma update_paths (m : Machine) :
  input_file_path (self (_update_generate_button_state m)) = input_file_path (self m)
  /\ output_file_path (self (_update_generate_button_state m)) = output_file_path (self m).
Proof.
  unfold _update_generate_button_state; simpl.
  destruct (Py.truthy (input_file_path (self m))); simpl;
    [destruct (Py.truthy (output_file_path (self m))); simpl|]; split; reflexivity.
Qed.

Lemma enabled_iff (m : Machine) :
  RoundedButton.disabled (generate_button (self (_update_generate_button_state m))) = false
  <-> input_file_path (self m) <> "" /\ output_file_path (self m) <> "".
Proof.
  rewrite update_disabled, negb_false_iff, andb_true_iff.
  now rewrite !PyFacts.truthy_true.
Qed.

(** C1.  After [_update_generate_button_state] the generate button is
    enabled exactly when the input path and the output path are both
    non-empty; the update leaves the two paths alone, so running it again
    gives the same enabled state.  Choosing an input file or an output
    path (a non-empty answer of the dialog) stores the path and runs the
    update, so the equivalence holds for the stored pair after either. *)
Theorem C1_generate_enabled_iff_both_paths (m : Machine) (path : string) :
  let upd := _update_generate_button_state in
  let enabled m := RoundedButton.disabled (generate_button (self m)) = false in
  let both m := input_file_path (self m) <> "" /\ output_file_path (self m) <> "" in
  (enabled (upd m) <-> both m)
  /\ (both (upd m) <-> both m)
  /\ (enabled (upd (upd m)) <-> enabled (upd m))
  /\ RoundedButton.disabled (generate_button (self (upd (upd m))))
     = RoundedButton.disabled (generate_button (self (upd m)))
  /\ (path <> "" ->
      input_file_path (self (select_input_file path m)) = path
      /\ output_file_path (self (select_input_file path m)) = output_file_path (self m)
      /\ (enabled (select_input_file path m) <-> both (select_input_file path m)))
  /\ (path <> "" ->
      output_file_path (self (set_output_file path m)) = path
      /\ input_file_path (self (set_output_file path m)) = input_file_path (self m)
      /\ (enabled (set_output_file path m) <-> both (set_output_file path m))).
Proof.
  intros upd enabled both. subst upd enabled both. cbv beta.
  pose proof (update_paths m) as [Hi Ho].
  assert (Hd2 : RoundedButton.disabled
                  (generate_button (self (_update_generate_button_state
                                            (_update_generate_button_state m))))
                = RoundedButton.disabled
                    (generate_button (self (_update_generate_button_state m))))
    by (rewrite !update_disabled, Hi, Ho; reflexivity).
  split; [apply enabled_iff|].
  split; [rewrite Hi, Ho; reflexivity|].
  split; [rewrite Hd2; reflexivity|].
  split; [exact Hd2|].
  split.
  - intros Hp. apply PyFacts.truthy_true in Hp.
    unfold select_input_file. rewrite Hp.
    set (m1 := with_self _ m).
    pose proof (update_paths m1) as [Hi1 Ho1].
    rewrite Hi1, Ho1.
    split; [reflexivity|]. split; [reflexivity|]. apply enabled_iff.
  - intros Hp. apply PyFacts.truthy_true in Hp.
    unfold set_output_file. rewrite Hp.
    set (m1 := with_self _ m).
    pose proof (update_paths m1) as [Hi1 Ho1].
    rewrite Hi1, Ho1.
    split; [reflexivity|]. split; [reflexivity|]. apply enabled_iff.
Qed.

Lemma C1_witness :
  input_file_path (self (select_input_file "notes.txt" Scenario.fresh_machine))
  = "notes.txt".
Proof.
  destruct (C1_generate_enabled_iff_both_paths Scenario.fresh_machine "notes.txt")
    as (_ & _ & _ & _ & H & _).
  apply H. discriminate.
Defined.

(** *** Importing and clearing the exclusion list *)

Lemma truthy_lstrip (s : string) :
  Py.truthy (Py.lstrip s) = negb (Py.blank s).
Proof.
  induction s as [|c s IH]; simpl; [reflexivity|].
  destruct (Py.isspace c); simpl; [exact IH | reflexivity].
Qed.

Lemma blank_rstrip (s : string) : Py.blank (Py.rstrip s) = Py.blank s.
Proof.
  induction s as [|c s IH]; simpl; [reflexivity|].
  destruct (Py.rstrip s) as [|c' r] eqn:Hr.
  - simpl in IH. rewrite <- IH.
    destruct (Py.isspace c) eqn:Hc; simpl; [reflexivity|].
    now rewrite Hc.
  - rewrite <- IH. reflexivity.
Qed.

Lemma truthy_strip (s : string) : Py.truthy (Py.strip s) = negb (Py.blank s).
Proof. unfold Py.strip. now rewrite truthy_lstrip, blank_rstrip. Qed.

Lemma blank_app_LF (s : string) :
  Py.blank (s +:+ String Py.LF EmptyString) = Py.blank s.
Proof.
  induction s as [|c s IH]; [reflexivity|].
  change (Py.isspace c && Py.blank (s +:+ String Py.LF EmptyString)
          = Py.isspace c && Py.blank s).
  now rewrite IH.
Qed.

Section Importing.
Variable enoent : string -> string.

Lemma import_text (path : string) (m : Machine) (w : string) :
  path <> "" ->
  open_read enoent path (disk m) = inr w ->
  exclusion_text (self (import_exclusion_list enoent path m)) =
  if Py.blank (exclusion_text (self m))
  then exclusion_text (self m) +:+ w
  else exclusion_text (self m) +:+ String Py.LF w.
Proof.
  intros Hp Hr. apply PyFacts.truthy_true in Hp.
  unfold import_exclusion_list. rewrite Hp. simpl. rewrite Hr. simpl.
  unfold text_get; simpl.
  rewrite truthy_strip, blank_app_LF.
  destruct (Py.blank (exclusion_text (self m))); reflexivity.
Qed.

Lemma import_frame (path : string) (m : Machine) :
  input_file_path (self (import_exclusion_list enoent path m)) = input_file_path (self m)
  /\ output_file_path (self (import_exclusion_list enoent path m)) = output_file_path (self m)
  /\ generate_button (self (import_exclusion_list enoent path m)) = generate_button (self m).
Proof.
  unfold import_exclusion_list.
  destruct (Py.truthy path); simpl; [|repeat split].
  destruct (open_read enoent path (disk m)) as [e|w]; simpl; [repeat split|].
  destruct (Py.truthy _); simpl; repeat split.
Qed.

Lemma import_calls (path : string) (m : Machine) :
  forallb (fun tc => negb (is_var_get (snd tc)))
          (new_calls m (import_exclusion_list enoent path m)) = true.
Proof.
  unfold import_exclusion_list.
  destruct (Py.truthy path); simpl.
  2:{ rewrite (new_calls_app m m []); [reflexivity | now rewrite app_nil_r]. }
  destruct (open_read enoent path (disk m)) as [e|w]; simpl.
  - erewrite new_calls_app; [|simpl; rewrite <- app_assoc; reflexivity].
    reflexivity.
  - destruct (Py.truthy _); simpl;
      (erewrite new_calls_app;
       [|simpl; rewrite <- !app_assoc; reflexivity]); reflexivity.
Qed.

End Importing.

(** C6, as the code has it.  When the chosen file is read, with content
    [w]: if the text area holds nothing but whitespace (in particular if it
    is empty) [w] is appended to it as it is, so an empty text area becomes
    exactly [w]; if it holds anything else, the result is the old text, one
    newline, then [w]. *)
Theorem C6_import_appends_after_newline_unless_blank
    (enoent : string -> string) (path : string) (m : Machine) (w : string) :
  path <> "" ->
  open_read enoent path (disk m) = inr w ->
  let old := exclusion_text (self m) in
  let new := exclusion_text (self (import_exclusion_list enoent path m)) in
  (old = "" -> new = w)
  /\ (Py.blank old = true -> new = old +:+ w)
  /\ (Py.blank old = false -> new = old +:+ String Py.LF w).
Proof.
  intros Hp Hr old new. subst old new.
  rewrite (import_text enoent path m w Hp Hr).
  split; [|split].
  - intros ->. reflexivity.
  - intros ->. reflexivity.
  - intros ->. reflexivity.
Qed.

Lemma C6_witness :
  exclusion_text
    (self (import_exclusion_list Scenario.enoent "words.txt"
             (with_self (set_exclusion_text "spam" (self Scenario.blank_text_machine))
                        Scenario.blank_text_machine)))
  = "spam" +:+ String Py.LF "foo".
Proof.
  refine (proj2 (proj2 (C6_import_appends_after_newline_unless_blank
            Scenario.enoent "words.txt"
            (with_self (set_exclusion_text "spam" (self Scenario.blank_text_machine))
                       Scenario.blank_text_machine)
            "foo" _ _)) _).
  - discriminate.
  - vm_compute. reflexivity.
  - vm_compute. reflexivity.
Defined.

(** C6, as the specification words it, fails on a text area that is not
    empty but blank: with a single space in it, importing a file that
    holds [foo] gives a space followed by [foo], with no newline between. *)
Lemma C6_blank_text_gets_no_newline :
  exclusion_text (self Scenario.blank_text_machine) = " "
  /\ open_read Scenario.enoent "words.txt" (disk Scenario.blank_text_machine)
     = inr "foo"
  /\ exclusion_text
       (self (import_exclusion_list Scenario.enoent "words.txt"
                Scenario.blank_text_machine)) = " foo"
  /\ exclusion_text
       (self (import_exclusion_list Scenario.enoent "words.txt"
                Scenario.blank_text_machine))
     <> exclusion_text (self Scenario.blank_text_machine) +:+ String Py.LF "foo".
Proof.
  split; [reflexivity|]. split; [vm_compute; reflexivity|].
  split; [vm_compute; reflexivity|]. vm_compute. discriminate.
Qed.

(** C9.  Importing an exclusion file (whatever the dialog returned and
    whether or not the file could be read) and clearing the exclusion list
    leave the input path, the output path and the generate button, with its
    disabled flag, as they were; neither reads a path variable, as the
    enablement update does. *)
Theorem C9_import_and_clear_leave_paths_and_button
    (enoent : string -> string) (path : string) (m : Machine) :
  let mi := import_exclusion_list enoent path m in
  let mc := clear_exclusion_list m in
  input_file_path (self mi) = input_file_path (self m)
  /\ output_file_path (self mi) = output_file_path (self m)
  /\ generate_button (self mi) = generate_button (self m)
  /\ RoundedButton.disabled (generate_button (self mi))
     = RoundedButton.disabled (generate_button (self m))
  /\ forallb (fun tc => negb (is_var_get (snd tc))) (new_calls m mi) = true
  /\ input_file_path (self mc) = input_file_path (self m)
  /\ output_file_path (self mc) = output_file_path (self m)
  /\ generate_button (self mc) = generate_button (self m)
  /\ log mc = log m.
Proof.
  intros mi mc. subst mi mc.
  destruct (import_frame enoent path m) as (Hi & Ho & Hb).
  rewrite Hi, Ho, Hb, import_calls.
  repeat split.
Qed.

(** *** The settings store *)

(** C3.  When the settings file is missing, or holds text that
    [json.load] rejects with [JSONDecodeError], [_load_settings] returns the
    empty dict and raises nothing, so [__init__] starts with the built-in
    words joined by newlines as exclusion text and with dark mode off. *)
Theorem C3_missing_or_malformed_settings_give_defaults
    (json_loads : string -> exc + pyval) (enoent : string -> string)
    (m : Machine) :
  (disk m !! settings_path (self m) = None
   \/ exists text e,
        disk m !! settings_path (self m) = Some (Regular text)
        /\ json_loads text = inl e
        /\ exc_type e = JSONDecodeError) ->
  fst (_load_settings json_loads enoent m) = inr (PyDict [])
  /\ fst (load_initial json_loads enoent m)
     = inr (PyStr (Py.join_lines default_exclusion_words), PyBool false).
Proof.
  intros H.
  assert (Hl : fst (_load_settings json_loads enoent m) = inr (PyDict [])).
  { unfold _load_settings, open_read; simpl.
    destruct H as [-> | (text & e & -> & -> & ->)]; reflexivity. }
  split; [exact Hl|].
  unfold load_initial.
  destruct (_load_settings json_loads enoent m) as [r m1]; simpl in Hl.
  subst r. reflexivity.
Qed.

Lemma C3_witness :
  fst (load_initial
         (Scenario.json_loads_one "{}" (PyDict [])) Scenario.enoent
         Scenario.fresh_machine)
  = inr (PyStr (Py.join_lines default_exclusion_words), PyBool false)
  /\ fst (load_initial
            (Scenario.json_loads_one "{}" (PyDict [])) Scenario.enoent
            Scenario.malformed_machine)
     = inr (PyStr (Py.join_lines default_exclusion_words), PyBool false).
Proof.
  split.
  - apply (C3_missing_or_malformed_settings_give_defaults
             (Scenario.json_loads_one "{}" (PyDict [])) Scenario.enoent
             Scenario.fresh_machine).
    left. reflexivity.
  - apply (C3_missing_or_malformed_settings_give_defaults
             (Scenario.json_loads_one "{}" (PyDict [])) Scenario.enoent
             Scenario.malformed_machine).
    right. exists "{dark_mode".
    exists (Exc JSONDecodeError "Expecting value: line 1 column 1 (char 0)").
    repeat split; vm_compute; reflexivity.
Defined.

(** C3, as the specification words it, fails.  A settings file whose
    bytes do not decode holds no valid structured data, and reading it
    raises a [UnicodeDecodeError] that [_load_settings] does not catch; a
    settings file that holds a JSON list is returned by [_load_settings]
    and [__init__] fails at [settings.get].  In both states an exception
    comes out instead of the defaults. *)
Lemma C3_undecodable_or_non_object_settings_raise :
  fst (load_initial (Scenario.json_loads_one "[]" (PyList [])) Scenario.enoent
         Scenario.undecodable_machine)
  = inl (Exc UnicodeDecodeError
           "'utf-8' codec can't decode byte 0xff in position 0: invalid start byte")
  /\ fst (load_initial (Scenario.json_loads_one "[]" (PyList [])) Scenario.enoent
            Scenario.list_settings_machine)
     = inl (Exc AttributeError "'list' object has no attribute 'get'").
Proof. split; vm_compute; reflexivity. Qed.

(** C4.  When [_save_settings] succeeds and the [json] module reads back
    the document it wrote, the start that follows gets the dark-mode flag
    that was saved and the exclusion text that was in the text area with
    its leading and trailing whitespace removed; a text without such
    whitespace comes back unchanged. *)
Theorem C4_save_then_load_round_trip
    (json_loads : string -> exc + pyval) (json_dumps : pyval -> string)
    (enoent : string -> string) (m m1 : Machine) :
  let doc := PyDict [ ("dark_mode", PyBool (dark_mode_switch (self m)));
                      ("exclusion_list",
                       PyStr (Py.strip (text_get (self m)))) ] in
  _save_settings json_dumps m = (inr tt, m1) ->
  json_loads (json_dumps doc) = inr doc ->
  fst (load_initial json_loads enoent m1)
  = inr (PyStr (Py.strip (exclusion_text (self m))),
         PyBool (dark_mode_switch (self m)))
  /\ (Py.strip (exclusion_text (self m)) = exclusion_text (self m) ->
      fst (load_initial json_loads enoent m1)
      = inr (PyStr (exclusion_text (self m)),
             PyBool (dark_mode_switch (self m)))).
Proof.
  intros doc Hsave Hjson.
  assert (H : fst (load_initial json_loads enoent m1)
              = inr (PyStr (Py.strip (exclusion_text (self m))),
                     PyBool (dark_mode_switch (self m)))).
  { unfold _save_settings, open_write in Hsave; simpl in Hsave.
    destruct (disk m !! settings_path (self m)) as [[c|e]|] eqn:Hd;
      inversion Hsave; subst m1; clear Hsave;
      unfold load_initial, _load_settings, open_read; simpl;
      rewrite lookup_insert_eq; fold doc; rewrite Hjson; simpl;
      unfold text_get; rewrite PyFacts.strip_app_LF; reflexivity. }
  split; [exact H|].
  intros Hs. rewrite H, Hs. reflexivity.
Qed.

Lemma C4_witness :
  fst (load_initial
         (Scenario.json_loads_one "{...}" Scenario.closing_doc) Scenario.enoent
         (snd (_save_settings (Scenario.json_dumps_one "{...}")
                 Scenario.closing_machine)))
  = inr (PyStr ("spam" +:+ String Py.LF "eggs"), PyBool true).
Proof.
  refine (proj1 (C4_save_then_load_round_trip
            (Scenario.json_loads_one "{...}" Scenario.closing_doc)
            (Scenario.json_dumps_one "{...}") Scenario.enoent
            Scenario.closing_machine
            (snd (_save_settings (Scenario.json_dumps_one "{...}")
                    Scenario.closing_machine)) _ _)).
  - vm_compute. reflexivity.
  - vm_compute. reflexivity.
Defined.

(** *** The generation worker *)

Lemma split_lines_nonempty (s : string) : Py.split_lines s <> [].
Proof.
  induction s as [|c s IH]; simpl; [discriminate|].
  destruct (Ascii.eqb c Py.LF); [discriminate|].
  destruct (Py.split_lines s); discriminate.
Qed.

Lemma split_lines_app_LF (s : string) :
  Py.split_lines (s +:+ String Py.LF EmptyString)
  = Py.split_lines s ++ [EmptyString].
Proof.
  induction s as [|c s IH]; [reflexivity|].
  change (Py.split_lines (String c (s +:+ String Py.LF EmptyString))
          = Py.split_lines (String c s) ++ [EmptyString]).
  simpl. rewrite IH.
  destruct (Ascii.eqb c Py.LF); [reflexivity|].
  pose proof (split_lines_nonempty s) as Hne.
  destruct (Py.split_lines s) as [|l ls]; [congruence | reflexivity].
Qed.

Lemma elem_of_custom_exclusion_list (x : string) (a : WordCloudApp) :
  x ∈ custom_exclusion_list (text_get a)
  <-> exists line, line ∈ Py.split_lines (exclusion_text a)
                   /\ Py.strip line <> ""
                   /\ x = Py.lower (Py.strip line).
Proof.
  unfold custom_exclusion_list, text_get.
  rewrite split_lines_app_LF, filter_app.
  assert (Hlast : filter (fun word => Is_true (Py.truthy (Py.strip word)))
                         [EmptyString] = []) by reflexivity.
  rewrite Hlast, app_nil_r.
  rewrite list_elem_of_In, in_map_iff.
  split.
  - intros (line & Hx & Hin). apply list_elem_of_In in Hin.
    apply list_elem_of_filter in Hin as [Ht Hin].
    exists line. split; [exact Hin|]. split; [|now symmetry].
    apply PyFacts.truthy_true. now apply Is_true_true.
  - intros (line & Hin & Hs & ->). exists line. split; [reflexivity|].
    apply list_elem_of_In, list_elem_of_filter. split; [|exact Hin].
    apply Is_true_true. now apply PyFacts.truthy_true.
Qed.

Section Worker.
Context {Image : Type}.
Variable STOPWORDS : gset string.
Variable WordCloud_generate : WordCloudArgs -> string -> exc + Image.
Variable plt_savefig : Image -> string -> gmap string fentry -> exc + gmap string fentry.
Variable enoent : string -> string.

Local Abbreviation worker := (_threaded_generate STOPWORDS WordCloud_generate plt_savefig enoent).
Local Abbreviation calls := (worker_calls STOPWORDS WordCloud_generate plt_savefig enoent).
Local Abbreviation outcome := (App.outcome STOPWORDS WordCloud_generate plt_savefig enoent).

Lemma worker_log (m : Machine) :
  log (worker m) = log m ++ map (pair (current m)) (calls m).
Proof.
  unfold _threaded_generate, generate_word_cloud, worker_calls, App.outcome.
  simpl.
  destruct (open_read enoent (input_file_path (self m)) (disk m)) as [e|text];
    simpl; [rewrite <- !app_assoc; reflexivity|].
  destruct (WordCloud_generate _ text) as [e|img];
    simpl; [rewrite <- !app_assoc; reflexivity|].
  destruct (plt_savefig img _ (disk m)) as [e|d];
    simpl; rewrite <- !app_assoc; reflexivity.
Qed.

Lemma worker_new_calls (m : Machine) :
  new_calls m (worker m) = map (pair (current m)) (calls m).
Proof. apply new_calls_app, worker_log. Qed.

Lemma worker_deliveries (m : Machine) :
  deliveries (new_calls m (worker m)) = [outcome m].
Proof.
  rewrite worker_new_calls. unfold worker_calls.
  destruct (open_read enoent (input_file_path (self m)) (disk m)) as [e|text];
    [reflexivity|].
  destruct (WordCloud_generate _ text) as [e|img]; reflexivity.
Qed.

Lemma worker_result (m : Machine) :
  match fst (generate_word_cloud STOPWORDS WordCloud_generate plt_savefig enoent m) with
  | inr path => outcome m = Success path /\ path = output_file_path (self m)
  | inl e => outcome m = Error (exc_str e)
  end.
Proof.
  unfold generate_word_cloud, App.outcome. simpl.
  destruct (open_read enoent (input_file_path (self m)) (disk m)) as [e|text];
    simpl; [reflexivity|].
  destruct (WordCloud_generate _ text) as [e|img]; simpl; [reflexivity|].
  destruct (plt_savefig img _ (disk m)) as [e|d]; simpl; [reflexivity|].
  split; reflexivity.
Qed.

Lemma worker_tags (m : Machine) :
  forallb (fun tc => negb (is_main (fst tc)))
          (new_calls m (worker (with_current WorkerThread m))) = true.
Proof.
  change (new_calls m (worker (with_current WorkerThread m)))
    with (new_calls (with_current WorkerThread m)
                    (worker (with_current WorkerThread m))).
  rewrite worker_new_calls. simpl current.
  induction (calls (with_current WorkerThread m)) as [|c k IH];
    [reflexivity | exact IH].
Qed.

End Worker.

(** C2.  Whatever the disk and the libraries do, [_threaded_generate]
    ends by handing exactly one result to [on_generation_complete], as its
    last call: [Success] with the output path when [generate_word_cloud]
    returned, [Error] with [str(e)] when it raised [e], be it from reading
    the input file, from the word-cloud library or from writing the image.
    With no file at the input path the result is [Error] with the text of
    the platform's file-not-found error.  The worker returns in every
    case. *)
Theorem C2_worker_turns_exceptions_into_results
    {Image : Type} (STOPWORDS : gset string)
    (WordCloud_generate : WordCloudArgs -> string -> exc + Image)
    (plt_savefig : Image -> string -> gmap string fentry
                   -> exc + gmap string fentry)
    (enoent : string -> string) (m : Machine) :
  let gen := generate_word_cloud STOPWORDS WordCloud_generate plt_savefig enoent m in
  let m' := _threaded_generate STOPWORDS WordCloud_generate plt_savefig enoent m in
  exists r : result,
    deliveries (new_calls m m') = [r]
    /\ last (log m') = Some (current m, After0 r)
    /\ r = outcome STOPWORDS WordCloud_generate plt_savefig enoent m
    /\ match fst gen with
       | inr path => r = Success path /\ path = output_file_path (self m)
       | inl e => r = Error (exc_str e)
       end
    /\ (disk m !! input_file_path (self m) = None ->
        r = Error (enoent (input_file_path (self m)))).
Proof.
  intros gen m'. subst gen m'.
  exists (outcome STOPWORDS WordCloud_generate plt_savefig enoent m).
  split; [apply worker_deliveries|].
  split.
  { rewrite worker_log. unfold worker_calls.
    rewrite !map_app, !app_assoc. apply last_snoc. }
  split; [reflexivity|].
  split; [apply worker_result|].
  intros Hnone. unfold outcome, open_read. rewrite Hnone. reflexivity.
Qed.

Lemma C2_witness :
  deliveries
    (new_calls Scenario.input_gone_machine
       (_threaded_generate Scenario.STOPWORDS Scenario.WordCloud_generate
          Scenario.plt_savefig Scenario.enoent Scenario.input_gone_machine))
  = [Error "[Errno 2] No such file or directory: 'notes.txt'"].
Proof.
  destruct (C2_worker_turns_exceptions_into_results
              Scenario.STOPWORDS Scenario.WordCloud_generate
              Scenario.plt_savefig Scenario.enoent Scenario.input_gone_machine)
    as (r & Hd & _ & _ & _ & Hmissing).
  rewrite Hd, Hmissing; reflexivity.
Defined.

(** C5.  When the input file is read, the worker calls the word-cloud
    library once, on the text of the file, with a white background, width
    1600, height 800, at most 200 words and collocations off, and with a
    stop-word set that holds exactly the standard stop words and, for each
    line of the exclusion text that is not blank, that line trimmed and in
    lower case. *)
Theorem C5_renderer_gets_stopwords_and_fixed_parameters
    {Image : Type} (STOPWORDS : gset string)
    (WordCloud_generate : WordCloudArgs -> string -> exc + Image)
    (plt_savefig : Image -> string -> gmap string fentry
                   -> exc + gmap string fentry)
    (enoent : string -> string) (m : Machine) (text : string) :
  open_read enoent (input_file_path (self m)) (disk m) = inr text ->
  exists S : gset string,
    wordcloud_calls
      (new_calls m (_threaded_generate STOPWORDS WordCloud_generate
                      plt_savefig enoent m))
    = [ (mkArgs S "white" 1600 800 200 false, text) ]
    /\ forall x : string,
         x ∈ S <->
         x ∈ STOPWORDS
         \/ exists line,
              line ∈ Py.split_lines (exclusion_text (self m))
              /\ Py.strip line <> ""
              /\ x = Py.lower (Py.strip line).
Proof.
  intros Hread.
  exists (STOPWORDS ∪ list_to_set (custom_exclusion_list (text_get (self m)))).
  split.
  - rewrite worker_new_calls. unfold worker_calls. rewrite Hread.
    destruct (WordCloud_generate _ text); reflexivity.
  - intros x.
    rewrite elem_of_union, elem_of_list_to_set, elem_of_custom_exclusion_list.
    reflexivity.
Qed.

Lemma C5_witness :
  exists S : gset string,
    wordcloud_calls
      (new_calls Scenario.ready_machine
         (_threaded_generate Scenario.STOPWORDS Scenario.WordCloud_generate
            Scenario.plt_savefig Scenario.enoent Scenario.ready_machine))
    = [ (mkArgs S "white" 1600 800 200 false, "cat cat dog") ]
    /\ forall x : string,
         x ∈ S <->
         x ∈ Scenario.STOPWORDS
         \/ exists line,
              line ∈ Py.split_lines (exclusion_text (self Scenario.ready_machine))
              /\ Py.strip line <> ""
              /\ x = Py.lower (Py.strip line).
Proof.
  apply (C5_renderer_gets_stopwords_and_fixed_parameters
           Scenario.STOPWORDS Scenario.WordCloud_generate
           Scenario.plt_savefig Scenario.enoent Scenario.ready_machine
           "cat cat dog").
  vm_compute. reflexivity.
Defined.

(** C8, as the code has it.  [start_generation_thread] reads nothing: it
    sets the status, disables the button and starts the thread, whose
    target takes no argument.  Every call of the run that follows is made
    by the worker thread.  The run begins with the reads of the input path
    and of the output path and the opening of the input file.  When the
    file cannot be read the run ends there, with the error handed over, and
    the exclusion text is never read; when it is read, the worker thread
    reads the exclusion text next and builds the stop words from what the
    text area holds then.  The path in a [Success] result is the output
    path the window holds when the worker runs. *)
Theorem C8_worker_thread_reads_the_window
    {Image : Type} (STOPWORDS : gset string)
    (WordCloud_generate : WordCloudArgs -> string -> exc + Image)
    (plt_savefig : Image -> string -> gmap string fentry
                   -> exc + gmap string fentry)
    (enoent : string -> string) (m : Machine) :
  let run := run_worker STOPWORDS WordCloud_generate plt_savefig enoent in
  new_calls m (start_generation_thread m) = [(current m, ThreadStart)]
  /\ input_file_path (self (start_generation_thread m)) = input_file_path (self m)
  /\ output_file_path (self (start_generation_thread m)) = output_file_path (self m)
  /\ exclusion_text (self (start_generation_thread m)) = exclusion_text (self m)
  /\ forallb (fun tc => negb (is_main (fst tc))) (new_calls m (run m)) = true
  /\ (exists rest,
        new_calls m (run m)
        = (WorkerThread, VarGet "input_file_path")
            :: (WorkerThread, VarGet "output_file_path")
            :: (WorkerThread, FileRead (input_file_path (self m))) :: rest)
  /\ (forall path, deliveries (new_calls m (run m)) = [Success path] ->
                   path = output_file_path (self m))
  /\ current (run m) = current m
  /\ (forall e,
        open_read enoent (input_file_path (self m)) (disk m) = inl e ->
        new_calls m (run m)
        = [ (WorkerThread, VarGet "input_file_path");
            (WorkerThread, VarGet "output_file_path");
            (WorkerThread, FileRead (input_file_path (self m)));
            (WorkerThread, After0 (Error (exc_str e))) ])
  /\ (forall text,
        open_read enoent (input_file_path (self m)) (disk m) = inr text ->
        exists rest,
          new_calls m (run m)
          = (WorkerThread, VarGet "input_file_path")
              :: (WorkerThread, VarGet "output_file_path")
              :: (WorkerThread, FileRead (input_file_path (self m)))
              :: (WorkerThread, TextGet)
              :: (WorkerThread,
                  WordCloudCall
                    (mkArgs (STOPWORDS
                               ∪ list_to_set
                                   (custom_exclusion_list
                                      (exclusion_text (self m)
                                       +:+ String Py.LF EmptyString)))
                            "white" 1600 800 200 false) text)
              :: rest).
Proof.
  intros run. subst run.
  split; [apply new_calls_app; reflexivity|].
  do 3 (split; [reflexivity|]).
  assert (Hn : forall m' : Machine,
             new_calls m (with_current (current m) m') = new_calls m m')
    by reflexivity.
  unfold run_worker. rewrite Hn.
  split; [apply worker_tags|].
  change (new_calls m
            (_threaded_generate STOPWORDS WordCloud_generate plt_savefig enoent
               (with_current WorkerThread m)))
    with (new_calls (with_current WorkerThread m)
            (_threaded_generate STOPWORDS WordCloud_generate plt_savefig enoent
               (with_current WorkerThread m))).
  split.
  { rewrite worker_new_calls. unfold worker_calls. simpl. eexists. reflexivity. }
  split.
  { intros path. rewrite worker_deliveries. intros [= Hout].
    pose proof (worker_result STOPWORDS WordCloud_generate plt_savefig enoent
                  (with_current WorkerThread m)) as Hr.
    destruct (fst (generate_word_cloud _ _ _ _ _)) as [e|p].
    - rewrite Hr in Hout. discriminate.
    - destruct Hr as [Hs Hp]. rewrite Hs in Hout. injection Hout as <-. exact Hp. }
  split; [reflexivity|].
  split.
  - intros e Hread. rewrite worker_new_calls.
    unfold worker_calls, outcome. simpl. rewrite Hread. reflexivity.
  - intros text Hread. rewrite worker_new_calls.
    unfold worker_calls. simpl. rewrite Hread. simpl.
    eexists. reflexivity.
Qed.

Lemma C8_witness :
  new_calls Scenario.input_gone_machine
    (run_worker Scenario.STOPWORDS Scenario.WordCloud_generate
       Scenario.plt_savefig Scenario.enoent Scenario.input_gone_machine)
  = [ (WorkerThread, VarGet "input_file_path");
      (WorkerThread, VarGet "output_file_path");
      (WorkerThread, FileRead "notes.txt");
      (WorkerThread,
       After0 (Error "[Errno 2] No such file or directory: 'notes.txt'")) ]
  /\ (exists rest,
        new_calls Scenario.fruit_machine
          (run_worker Scenario.STOPWORDS Scenario.WordCloud_generate
             Scenario.plt_savefig Scenario.enoent Scenario.fruit_machine)
        = (WorkerThread, VarGet "input_file_path")
            :: (WorkerThread, VarGet "output_file_path")
            :: (WorkerThread, FileRead "fruit.txt")
            :: (WorkerThread, TextGet)
            :: (WorkerThread,
                WordCloudCall
                  (mkArgs (Scenario.STOPWORDS
                             ∪ list_to_set
                                 (custom_exclusion_list
                                    (exclusion_text (self Scenario.fruit_machine)
                                     +:+ String Py.LF EmptyString)))
                          "white" 1600 800 200 false) "apple banana apple")
            :: rest)
  /\ "cloud.png" = output_file_path (self Scenario.fruit_machine).
Proof.
  pose proof (C8_worker_thread_reads_the_window
                Scenario.STOPWORDS Scenario.WordCloud_generate
                Scenario.plt_savefig Scenario.enoent Scenario.input_gone_machine)
    as (_ & _ & _ & _ & _ & _ & _ & _ & Hgone & _).
  pose proof (C8_worker_thread_reads_the_window
                Scenario.STOPWORDS Scenario.WordCloud_generate
                Scenario.plt_savefig Scenario.enoent Scenario.fruit_machine)
    as (_ & _ & _ & _ & _ & _ & Hpath & _ & _ & Hread).
  split; [|split].
  - apply (Hgone (Exc FileNotFoundError
                    "[Errno 2] No such file or directory: 'notes.txt'")).
    vm_compute. reflexivity.
  - apply (Hread "apple banana apple"). vm_compute. reflexivity.
  - apply Hpath. vm_compute. reflexivity.
Defined.

(** C8, as the specification words it, fails.  In a run from a window
    with both paths chosen, reads of the path variables and of the text
    area are made by the worker thread.  No copy is taken at the request:
    when the user picks another input file after the thread was started
    and before it runs, the worker opens the new file, not the one chosen
    at the request; when the user picks another output path, the worker
    saves to the new path. *)
Lemma C8_reads_happen_on_the_worker_thread :
  ui_reads_on_main
    (take 4
       (new_calls Scenario.fruit_machine
          (run_worker Scenario.STOPWORDS Scenario.WordCloud_generate
             Scenario.plt_savefig Scenario.enoent
             (start_generation_thread Scenario.fruit_machine)))) = false
  /\ input_file_path (self (start_generation_thread Scenario.fruit_machine))
     = "fruit.txt"
  /\ take 3
       (new_calls
          (select_input_file "other.txt"
             (start_generation_thread Scenario.fruit_machine))
          (run_worker Scenario.STOPWORDS Scenario.WordCloud_generate
             Scenario.plt_savefig Scenario.enoent
             (select_input_file "other.txt"
                (start_generation_thread Scenario.fruit_machine))))
     = [ (WorkerThread, VarGet "input_file_path");
         (WorkerThread, VarGet "output_file_path");
         (WorkerThread, FileRead "other.txt") ]
  /\ output_file_path (self (start_generation_thread Scenario.fruit_machine))
     = "cloud.png"
  /\ deliveries
       (log (run_worker Scenario.STOPWORDS Scenario.WordCloud_generate
               Scenario.plt_savefig Scenario.enoent
               (set_output_file "other.png"
                  (start_generation_thread Scenario.fruit_machine))))
     = [Success "other.png"].
Proof. repeat split; vm_compute; reflexivity. Qed.

End AppFacts.

(** ** Further properties of the button *)
Module ButtonExtra.
Import RoundedButton.

Section Steps.
Context {C : Type}.
Implicit Types (b : t C) (a : action) (acts : list action).

Lemma draw_keeps color b :
  (disabled (draw color b), command (draw color b), text (draw color b),
   radius (draw color b), font (draw color b),
   (fg (draw color b), bg_color (draw color b), hover_color (draw color b),
    pressed_color (draw color b), disabled_color (draw color b)),
   (winfo_width (draw color b), winfo_height (draw color b)))
  = (disabled b, command b, text b, radius b, font b,
     (fg b, bg_color b, hover_color b, pressed_color b, disabled_color b),
     (winfo_width b, winfo_height b)).
Proof. unfold draw. destruct (_ || _); reflexivity. Qed.

Lemma step_keeps a b :
  Trace.is_toggle a = false ->
  (disabled (fst (step a b)), command (fst (step a b)), text (fst (step a b)),
   radius (fst (step a b)), font (fst (step a b)),
   (fg (fst (step a b)), bg_color (fst (step a b)),
    hover_color (fst (step a b)), pressed_color (fst (step a b)),
    disabled_color (fst (step a b))))
  = (disabled b, command b, text b, radius b, font b,
     (fg b, bg_color b, hover_color b, pressed_color b, disabled_color b)).
Proof.
  intros Ha.
  destruct a as [e| | |w h|]; try discriminate; simpl.
  - destruct e; simpl; unfold _on_enter, _on_leave, _on_press, _on_release;
      destruct (disabled b) eqn:Hd; simpl; rewrite ?Hd; try reflexivity;
      match goal with
      | |- context [draw ?c b] =>
          pose proof (draw_keeps c b) as H; rewrite Hd in H;
          injection H as -> -> -> -> -> -> -> -> -> -> _ _; reflexivity
      end.
  - reflexivity.
  - unfold fire_timer. destruct (timers b) as [|[ms] ts]; [reflexivity|].
    pose proof (draw_keeps None (with_timers ts b)) as H. simpl in H.
    injection H as -> -> -> -> -> -> -> -> -> -> _ _. reflexivity.
Qed.

Lemma run_cons a acts b :
  run (a :: acts) b
  = (fst (run acts (fst (step a b))),
     snd (step a b) ++ snd (run acts (fst (step a b)))).
Proof.
  simpl. destruct (step a b) as [b1 cs1]. simpl.
  destruct (run acts b1) as [b2 cs2]. reflexivity.
Qed.

Lemma canvas_step a b :
  (length (canvas b) <= 2)%nat -> (length (canvas (fst (step a b))) <= 2)%nat.
Proof.
  intros Hc.
  assert (Hdraw : forall color b0, (length (canvas b0) <= 2)%nat ->
                                   (length (canvas (draw color b0)) <= 2)%nat).
  { intros color b0 H0. unfold draw. destruct (_ || _); simpl; [exact H0 | lia]. }
  destruct a as [e| | |w h|]; simpl.
  - destruct e; simpl; unfold _on_enter, _on_leave, _on_press, _on_release;
      destruct (disabled b); simpl; auto.
  - apply Hdraw. exact Hc.
  - apply Hdraw. exact Hc.
  - exact Hc.
  - unfold fire_timer. destruct (timers b) as [|[ms] ts]; [exact Hc|].
    apply Hdraw. exact Hc.
Qed.

End Steps.

(** X1.  As long as the button calls no command, pointer events, a
    change of size and pending timer callbacks never change whether the
    button is disabled, nor its command, label, radius, font or colours:
    the handlers themselves leave the flag alone, and only [disable()] and
    [enable()] change it.  (What a command that is called does to the
    button is the command's: the generate button's command disables it.) *)
Theorem X1_only_toggles_change_the_flag
    {C : Type} (acts : list action) (b : t C) :
  forallb (fun a => negb (Trace.is_toggle a)) acts = true ->
  snd (run acts b) = [] ->
  let b' := fst (run acts b) in
  disabled b' = disabled b
  /\ command b' = command b
  /\ text b' = text b /\ radius b' = radius b /\ font b' = font b
  /\ fg b' = fg b /\ bg_color b' = bg_color b
  /\ hover_color b' = hover_color b /\ pressed_color b' = pressed_color b
  /\ disabled_color b' = disabled_color b.
Proof.
  intros Hall Hnone. clear Hnone. revert b Hall.
  induction acts as [|a acts IH]; intros b Hall; simpl in Hall.
  - simpl. repeat split.
  - apply andb_true_iff in Hall as [Ha Hall]. apply negb_true_iff in Ha.
    rewrite run_cons. simpl fst.
    specialize (IH (fst (step a b)) Hall). simpl in IH.
    pose proof (step_keeps a b Ha) as Hs.
    injection Hs as H1 H2 H3 H4 H5 H6 H7 H8 H9 H10.
    destruct IH as (I1 & I2 & I3 & I4 & I5 & I6 & I7 & I8 & I9 & I10).
    cbv zeta.
    rewrite I1, I2, I3, I4, I5, I6, I7, I8, I9, I10.
    repeat split; assumption.
Qed.

Lemma X1_witness :
  disabled (fst (run [Pointer Enter; Pointer Button1; Layout 10 10; Timeout;
                      Pointer ButtonRelease1; Pointer Leave]
                     (disable Scenario.sample_button))) = true
  /\ disabled (fst (run [Pointer Enter; Pointer Button1; Pointer Leave; Timeout]
                        Scenario.sample_button)) = false.
Proof.
  split.
  - refine (proj1 (X1_only_toggles_change_the_flag
                     [Pointer Enter; Pointer Button1; Layout 10 10; Timeout;
                      Pointer ButtonRelease1; Pointer Leave]
                     (disable Scenario.sample_button) _ _)); reflexivity.
  - refine (proj1 (X1_only_toggles_change_the_flag
                     [Pointer Enter; Pointer Button1; Pointer Leave; Timeout]
                     Scenario.sample_button _ _)); reflexivity.
Defined.

(** X2.  Whatever happens to a button, it calls nothing but its own
    command, and at most once per button release it received. *)
Theorem X2_calls_bounded_by_releases
    {C : Type} (acts : list action) (b : t C) :
  (length (snd (run acts b)) <= Trace.releases acts)%nat
  /\ Forall (fun c => command b = Some c) (snd (run acts b)).
Proof.
  revert b. induction acts as [|a acts IH]; intros b.
  - simpl. split; [lia | constructor].
  - rewrite run_cons. simpl snd.
    destruct (IH (fst (step a b))) as [IHl IHc].
    rewrite (ButtonFacts.command_step a b) in IHc.
    rewrite length_app, ButtonFacts.step_fired.
    split.
    + unfold Trace.releases in *.
      destruct a as [e| | | |]; simpl in *; try lia.
      destruct e; simpl in *; try lia.
      destruct (disabled b); simpl; [lia|].
      destruct (command b); simpl; lia.
    + apply Forall_app. split; [|exact IHc].
      destruct a as [e| | | |]; try constructor.
      destruct e; try constructor.
      destruct (disabled b); [constructor|].
      destruct (command b) as [c|]; repeat constructor.
Qed.

(** X3.  A repaint deletes what the canvas held before it draws: whatever
    happens to a button whose canvas holds at most two items, the canvas
    never holds more than the polygon and the label. *)
Theorem X3_canvas_never_accumulates
    {C : Type} (acts : list action) (b : t C) :
  (length (canvas b) <= 2)%nat ->
  (length (canvas (fst (run acts b))) <= 2)%nat.
Proof.
  revert b. induction acts as [|a acts IH]; intros b Hc.
  - exact Hc.
  - rewrite run_cons. simpl fst. apply IH. now apply canvas_step.
Qed.

Lemma X3_witness :
  (length (canvas (fst (run [Enable; Pointer Enter; Pointer Button1;
                             Pointer ButtonRelease1; Disable]
                            Scenario.sample_button))) <= 2)%nat.
Proof.
  apply (X3_canvas_never_accumulates
           [Enable; Pointer Enter; Pointer Button1; Pointer ButtonRelease1;
            Disable] Scenario.sample_button).
  simpl. lia.
Defined.

Section Timers.
Context {C : Type}.
Implicit Types (b : t C).

Lemma fire_timer_size b :
  winfo_width (fire_timer b) = winfo_width b
  /\ winfo_height (fire_timer b) = winfo_height b.
Proof.
  unfold fire_timer. destruct (timers b) as [|[ms] ts]; [split; reflexivity|].
  pose proof (draw_keeps None (with_timers ts b)) as H. simpl in H.
  injection H as _ _ _ _ _ _ _ _ _ _ -> ->. split; reflexivity.
Qed.

Lemma iter_fire_timer_size (n : nat) b :
  winfo_width (Nat.iter n fire_timer b) = winfo_width b
  /\ winfo_height (Nat.iter n fire_timer b) = winfo_height b.
Proof.
  induction n as [|n [IHw IHh]]; [split; reflexivity|].
  simpl. destruct (fire_timer_size (Nat.iter n fire_timer b)) as [-> ->].
  split; assumption.
Qed.

Lemma fire_timer_unsized b :
  winfo_width b <= 1 \/ winfo_height b <= 1 ->
  length (timers (fire_timer b)) = length (timers b).
Proof.
  intros Hsz. unfold fire_timer.
  destruct (timers b) as [|[ms] ts] eqn:Ht; [now rewrite Ht|].
  rewrite ButtonFacts.draw_unsized by exact Hsz.
  simpl. rewrite length_app. simpl. lia.
Qed.

Lemma fire_timer_sized b :
  1 < winfo_width b -> 1 < winfo_height b ->
  timers (fire_timer b) = drop 1 (timers b).
Proof.
  intros Hw Hh. unfold fire_timer.
  destruct (timers b) as [|[ms] ts] eqn:Ht; [now rewrite Ht|].
  rewrite ButtonFacts.draw_sized by (simpl; lia). reflexivity.
Qed.

End Timers.

(** X4.  The repaint that is put off re-registers itself for as long as
    the widget has no size: running pending callbacks then never shortens
    the queue.  Once the widget has a size each callback that runs leaves
    the queue for good, so running as many callbacks as are pending
    empties it. *)
Theorem X4_retries_stop_once_laid_out {C : Type} (b : t C) (n : nat) :
  (winfo_width b <= 1 \/ winfo_height b <= 1 ->
   length (timers (Nat.iter n fire_timer b)) = length (timers b))
  /\ (1 < winfo_width b -> 1 < winfo_height b ->
      timers (Nat.iter n fire_timer b) = drop n (timers b)
      /\ timers (Nat.iter (length (timers b)) fire_timer b) = []).
Proof.
  split.
  - intros Hsz. induction n as [|n IH]; [reflexivity|].
    simpl. rewrite fire_timer_unsized; [exact IH|].
    destruct (iter_fire_timer_size n b) as [-> ->]. exact Hsz.
  - intros Hw Hh.
    assert (Hdrop : forall k, timers (Nat.iter k fire_timer b) = drop k (timers b)).
    { induction k as [|k IH]; [reflexivity|].
      simpl. rewrite fire_timer_sized.
      - rewrite IH, drop_drop. f_equal. lia.
      - destruct (iter_fire_timer_size k b) as [-> _]. exact Hw.
      - destruct (iter_fire_timer_size k b) as [_ ->]. exact Hh. }
    split; [apply Hdrop|]. rewrite Hdrop. apply drop_all.
Qed.

Lemma X4_witness :
  length (timers (Nat.iter 5 fire_timer
                    (draw None (init "Clear" (Some App.clear_exclusion_list_cmd)
                                  5 Scenario.font_style))))
  = 1%nat
  /\ timers (Nat.iter 1 fire_timer
               (with_size 60 30
                  (draw None (init "Clear" (Some App.clear_exclusion_list_cmd)
                                5 Scenario.font_style)))) = [].
Proof.
  split.
  - refine (proj1 (X4_retries_stop_once_laid_out
                     (draw None (init "Clear" (Some App.clear_exclusion_list_cmd)
                                   5 Scenario.font_style)) 5) _).
    left. simpl. lia.
  - refine (proj2 (proj2 (X4_retries_stop_once_laid_out
                     (with_size 60 30
                        (draw None (init "Clear"
                                      (Some App.clear_exclusion_list_cmd)
                                      5 Scenario.font_style))) 0) _ _));
      simpl; lia.
Defined.

(** X5.  On a laid-out, enabled button, for the events that call no
    command: the pointer entering and leaving again leaves the button
    exactly as a plain repaint does, painted with the normal background; a
    press paints the pressed colour; a press after which the pointer leaves
    is back to the plain repaint.  A colour that is the empty string counts
    as no colour.  None of these sequences calls the command. *)
Theorem X5_hover_and_press_paint {C : Type} (b : t C) :
  1 < winfo_width b -> 1 < winfo_height b -> disabled b = false ->
  fst (run [Pointer Enter; Pointer Leave] b) = draw None b
  /\ canvas (draw None b)
     = [ Polygon (points b) (bg_color b) true;
         Text (winfo_width b # 2) (winfo_height b # 2) (text b) (font b) (fg b) ]
  /\ canvas (fst (run [Pointer Button1] b))
     = [ Polygon (points b)
                 (if Py.truthy (pressed_color b) then pressed_color b
                  else bg_color b) true;
         Text (winfo_width b # 2) (winfo_height b # 2) (text b) (font b) (fg b) ]
  /\ canvas (fst (run [Pointer Enter] b))
     = [ Polygon (points b)
                 (if Py.truthy (hover_color b) then hover_color b
                  else bg_color b) true;
         Text (winfo_width b # 2) (winfo_height b # 2) (text b) (font b) (fg b) ]
  /\ fst (run [Pointer Button1; Pointer Leave] b) = draw None b
  /\ snd (run [Pointer Enter; Pointer Button1; Pointer Leave] b) = [].
Proof.
  intros Hw Hh Hd.
  apply Z.leb_gt in Hw, Hh.
  unfold run, step, handle, _on_enter, _on_leave, _on_press, _on_release.
  rewrite Hd. unfold draw. rewrite Hw, Hh. simpl. rewrite Hd, Hw, Hh. simpl.
  rewrite Hd. simpl.
  unfold painted, current_color; simpl. rewrite Hd.
  repeat split.
Qed.

Lemma X5_witness :
  fst (run [Pointer Enter; Pointer Leave] Scenario.sample_button)
  = draw None Scenario.sample_button.
Proof.
  refine (proj1 (X5_hover_and_press_paint Scenario.sample_button _ _ _));
    simpl; first [lia | reflexivity].
Defined.

(** X6.  Applying a theme to a button changes its six colours and nothing
    else: the button stays disabled or enabled as it was and keeps its
    command, label and size.  On a laid-out button the repaint uses the
    theme's disabled colour if the button is disabled and the theme's
    button colour otherwise, and only the last theme applied counts: going
    to the other theme and back gives the button the first theme gave. *)
Theorem X6_theme_changes_only_colours
    {C : Type} (t1 t2 : Theme.palette) (k1 k2 : Theme.parent_bg_key) (b : t C) :
  let b' := Theme.theme_button t2 k2 b in
  disabled b' = disabled b /\ command b' = command b /\ text b' = text b
  /\ winfo_width b' = winfo_width b /\ winfo_height b' = winfo_height b
  /\ (fg b', bg_color b', hover_color b', pressed_color b', disabled_color b', bg b')
     = (Theme.button_fg t2, Theme.button_bg t2, Theme.button_hover t2,
        Theme.button_pressed t2, Theme.button_disabled t2, Theme.parent_bg t2 k2)
  /\ (1 < winfo_width b -> 1 < winfo_height b ->
      canvas b'
      = [ Polygon (points b)
                  (if disabled b then Theme.button_disabled t2
                   else Theme.button_bg t2) true;
          Text (winfo_width b # 2) (winfo_height b # 2) (text b) (font b)
               (Theme.button_fg t2) ]
      /\ Theme.theme_button t2 k2 (Theme.theme_button t1 k1 b)
         = Theme.theme_button t2 k2 b).
Proof.
  simpl. unfold Theme.theme_button, configure_colors.
  split; [unfold draw; destruct (_ || _); reflexivity|].
  split; [unfold draw; destruct (_ || _); reflexivity|].
  split; [unfold draw; destruct (_ || _); reflexivity|].
  split; [unfold draw; destruct (_ || _); reflexivity|].
  split; [unfold draw; destruct (_ || _); reflexivity|].
  split; [unfold draw; destruct (_ || _); reflexivity|].
  intros Hw Hh. apply Z.leb_gt in Hw, Hh.
  unfold draw; simpl. rewrite Hw, Hh. simpl. rewrite Hw, Hh. simpl.
  split; reflexivity.
Qed.

Lemma X6_witness :
  Theme.theme_button (Theme.active_theme false) Theme.bg_key
    (Theme.theme_button (Theme.active_theme true) Theme.bg_key
       Scenario.sample_button)
  = Theme.theme_button (Theme.active_theme false) Theme.bg_key
      Scenario.sample_button.
Proof.
  refine (proj2 (proj2 (proj2 (proj2 (proj2 (proj2 (proj2
            (X6_theme_changes_only_colours
               (Theme.active_theme true) (Theme.active_theme false)
               Theme.bg_key Theme.bg_key Scenario.sample_button)))))) _ _));
    simpl; lia.
Defined.

End ButtonExtra.

(** ** Further properties of the string primitives *)
Module PyExtra.
Import Py.

Lemma lower_char_idem (c : ascii) : lower_char (lower_char c) = lower_char c.
Proof. destruct c as [[] [] [] [] [] [] [] []]; reflexivity. Qed.

Lemma isspace_lower_char (c : ascii) : isspace (lower_char c) = isspace c.
Proof. destruct c as [[] [] [] [] [] [] [] []]; reflexivity. Qed.

Lemma lower_idem (s : string) : lower (lower s) = lower s.
Proof.
  induction s as [|c s IH]; simpl; [reflexivity|].
  now rewrite lower_char_idem, IH.
Qed.

Lemma lower_empty (s : string) : lower s = EmptyString -> s = EmptyString.
Proof. destruct s; simpl; [reflexivity | discriminate]. Qed.

Lemma lstrip_lower (s : string) : lstrip (lower s) = lower (lstrip s).
Proof.
  induction s as [|c s IH]; simpl; [reflexivity|].
  rewrite isspace_lower_char. destruct (isspace c); [exact IH | reflexivity].
Qed.

Lemma rstrip_lower (s : string) : rstrip (lower s) = lower (rstrip s).
Proof.
  induction s as [|c s IH]; simpl; [reflexivity|].
  rewrite IH, isspace_lower_char.
  destruct (rstrip s) as [|c' r]; simpl; [|reflexivity].
  destruct (isspace c); reflexivity.
Qed.

Lemma strip_lower (s : string) : strip (lower s) = lower (strip s).
Proof. unfold strip. now rewrite rstrip_lower, lstrip_lower. Qed.

Lemma lstrip_idem (s : string) : lstrip (lstrip s) = lstrip s.
Proof.
  induction s as [|c s IH]; simpl; [reflexivity|].
  destruct (isspace c) eqn:Hc; [exact IH|]. simpl. now rewrite Hc.
Qed.

Lemma rstrip_idem (s : string) : rstrip (rstrip s) = rstrip s.
Proof.
  induction s as [|c s IH]; simpl; [reflexivity|].
  destruct (rstrip s) as [|c' r] eqn:Hr.
  - destruct (isspace c) eqn:Hc; simpl; [reflexivity|]. now rewrite Hc.
  - change (rstrip (String c (String c' r))) with
      (match rstrip (String c' r) with
       | EmptyString => if isspace c then EmptyString else String c EmptyString
       | r0 => String c r0
       end).
    rewrite IH. reflexivity.
Qed.

Lemma rstrip_lstrip (s : string) : rstrip (lstrip s) = lstrip (rstrip s).
Proof.
  induction s as [|c s IH]; simpl; [reflexivity|].
  destruct (isspace c) eqn:Hc.
  - rewrite IH. destruct (rstrip s) as [|c' r]; simpl; [reflexivity|].
    now rewrite Hc.
  - simpl. destruct (rstrip s) as [|c' r]; simpl; now rewrite Hc.
Qed.

Lemma strip_idem (s : string) : strip (strip s) = strip s.
Proof.
  unfold strip.
  now rewrite rstrip_lstrip, rstrip_idem, lstrip_idem.
Qed.

Lemma blank_lines (s : string) :
  blank s = true -> Forall (fun l => blank l = true) (split_lines s).
Proof.
  induction s as [|c s IH]; simpl; intros Hb.
  - repeat constructor.
  - apply andb_true_iff in Hb as [Hc Hs]. specialize (IH Hs).
    destruct (Ascii.eqb c LF).
    + constructor; [reflexivity | exact IH].
    + destruct (split_lines s) as [|l ls]; [repeat constructor; simpl; now rewrite Hc|].
      inversion IH as [|? ? Hl Hls]; subst.
      constructor; [simpl; now rewrite Hc, Hl | exact Hls].
Qed.

Lemma split_one_line (w : string) :
  Trace.one_line w = true -> split_lines w = [w].
Proof.
  induction w as [|c w IH]; simpl; [reflexivity|].
  intros H. apply andb_true_iff in H as [Hc Hw].
  apply negb_true_iff in Hc. rewrite Hc, (IH Hw). reflexivity.
Qed.

Lemma split_one_line_app (w rest : string) :
  Trace.one_line w = true ->
  split_lines (w +:+ String LF rest) = w :: split_lines rest.
Proof.
  induction w as [|c w IH]; intros H.
  - reflexivity.
  - change (split_lines (String c (w +:+ String LF rest))
            = String c w :: split_lines rest).
    simpl in H. apply andb_true_iff in H as [Hc Hw].
    apply negb_true_iff in Hc. simpl. rewrite Hc, (IH Hw). reflexivity.
Qed.

Lemma split_join (ws : list string) :
  ws <> [] ->
  forallb Trace.one_line ws = true ->
  split_lines (join_lines ws) = ws.
Proof.
  induction ws as [|w ws IH]; [congruence|].
  intros _ H. simpl in H. apply andb_true_iff in H as [Hw Hws].
  destruct ws as [|w' ws'].
  - simpl. now apply split_one_line.
  - change (join_lines (w :: w' :: ws'))
      with (w +:+ String LF (join_lines (w' :: ws'))).
    rewrite split_one_line_app by exact Hw.
    rewrite IH; [reflexivity | discriminate | exact Hws].
Qed.

End PyExtra.

(** ** Further properties of the application *)
Module AppExtra.
Import App.

(** X7.  An import that does not read a file changes nothing in the
    window or on disk.  When the dialog is cancelled nothing happens at
    all; when the file cannot be read the only effect is one error dialog
    whose message is [Failed to import file: ] followed by [str(e)]. *)
Theorem X7_failed_import_changes_nothing
    (enoent : string -> string) (path : string) (m : Machine) (e : exc) :
  (path = "" -> import_exclusion_list enoent path m = m)
  /\ (path <> "" -> open_read enoent path (disk m) = inl e ->
      self (import_exclusion_list enoent path m) = self m
      /\ disk (import_exclusion_list enoent path m) = disk m
      /\ new_calls m (import_exclusion_list enoent path m)
         = [ (current m, FileRead path);
             (current m, ShowError "Error"
                           ("Failed to import file: " +:+ exc_str e)) ]).
Proof.
  split.
  - intros ->. reflexivity.
  - intros Hp Hr. apply PyFacts.truthy_true in Hp.
    unfold import_exclusion_list. rewrite Hp. simpl. rewrite Hr.
    split; [reflexivity|]. split; [reflexivity|].
    apply AppFacts.new_calls_app. simpl. now rewrite <- app_assoc.
Qed.

Lemma X7_witness :
  new_calls Scenario.fresh_machine
    (import_exclusion_list Scenario.enoent "words.txt" Scenario.fresh_machine)
  = [ (MainThread, FileRead "words.txt");
      (MainThread,
       ShowError "Error"
         "Failed to import file: [Errno 2] No such file or directory: 'words.txt'") ].
Proof.
  refine (proj2 (proj2 (proj2 (X7_failed_import_changes_nothing
            Scenario.enoent "words.txt" Scenario.fresh_machine
            (Exc FileNotFoundError
               "[Errno 2] No such file or directory: 'words.txt'")) _ _))).
  - discriminate.
  - vm_compute. reflexivity.
Defined.

(** X8.  A successful import reads the file, reads the text area and
    shows one success dialog, in that order; the disk is unchanged and so
    is everything in the window but the exclusion text.  After [Clear] the
    import gives exactly the content of the file. *)
Theorem X8_import_after_clear_is_the_file
    (enoent : string -> string) (path : string) (m : Machine) (w : string) :
  path <> "" -> open_read enoent path (disk m) = inr w ->
  let m' := import_exclusion_list enoent path m in
  disk m' = disk m
  /\ set_exclusion_text (exclusion_text (self m)) (self m') = self m
  /\ new_calls m m'
     = [ (current m, FileRead path); (current m, TextGet);
         (current m, ShowInfo "Success" "Exclusion list imported successfully.") ]
  /\ exclusion_text
       (self (import_exclusion_list enoent path (clear_exclusion_list m))) = w.
Proof.
  intros Hp Hr m'. subst m'.
  assert (Hr' : open_read enoent path (disk (clear_exclusion_list m)) = inr w)
    by exact Hr.
  rewrite (AppFacts.import_text enoent path (clear_exclusion_list m) w Hp Hr').
  apply PyFacts.truthy_true in Hp.
  unfold import_exclusion_list. rewrite Hp. simpl. rewrite Hr. simpl.
  destruct (Py.truthy (Py.strip (text_get (self m)))); simpl;
    (split; [reflexivity|]); (split; [destruct m as [[] ? ? ?]; reflexivity|]);
    (split; [apply AppFacts.new_calls_app; simpl;
             rewrite <- !app_assoc; reflexivity | reflexivity]).
Qed.

Lemma X8_witness :
  exclusion_text
    (self (import_exclusion_list Scenario.enoent "words.txt"
             (clear_exclusion_list Scenario.blank_text_machine))) = "foo".
Proof.
  refine (proj2 (proj2 (proj2 (X8_import_after_clear_is_the_file
            Scenario.enoent "words.txt" Scenario.blank_text_machine "foo" _ _)))).
  - discriminate.
  - vm_compute. reflexivity.
Defined.

(** X9.  [_load_settings] catches two classes only.  A settings file that
    cannot be opened or read for another reason (no permission, a
    directory, bytes that do not decode), and a failure of [json.load]
    that is not a [JSONDecodeError], raise out of [__init__]: the window is
    not built. *)
Theorem X9_other_load_errors_propagate
    (json_loads : string -> exc + pyval) (enoent : string -> string)
    (m : Machine) (e : exc) :
  exc_type e <> FileNotFoundError -> exc_type e <> JSONDecodeError ->
  (disk m !! settings_path (self m) = Some (Raises e)
   \/ exists text, disk m !! settings_path (self m) = Some (Regular text)
                   /\ json_loads text = inl e) ->
  fst (_load_settings json_loads enoent m) = inl e
  /\ fst (load_initial json_loads enoent m) = inl e.
Proof.
  intros H1 H2 H.
  assert (Hl : fst (_load_settings json_loads enoent m) = inl e).
  { unfold _load_settings, open_read; simpl.
    destruct H as [-> | (text & -> & ->)];
      destruct (exc_type e); try reflexivity; congruence. }
  split; [exact Hl|].
  unfold load_initial.
  destruct (_load_settings json_loads enoent m) as [r m1]. simpl in Hl.
  subst r. reflexivity.
Qed.

Lemma X9_witness :
  fst (load_initial (Scenario.json_loads_one "{}" (PyDict [])) Scenario.enoent
         (with_disk
            {[ "/home/user/.wordcloud_app_settings.json" :=
                 Raises (Exc PermissionError "[Errno 13] Permission denied") ]}
            Scenario.fresh_machine))
  = inl (Exc PermissionError "[Errno 13] Permission denied").
Proof.
  refine (proj2 (X9_other_load_errors_propagate
            (Scenario.json_loads_one "{}" (PyDict [])) Scenario.enoent
            (with_disk
               {[ "/home/user/.wordcloud_app_settings.json" :=
                    Raises (Exc PermissionError "[Errno 13] Permission denied") ]}
               Scenario.fresh_machine)
            (Exc PermissionError "[Errno 13] Permission denied") _ _ _)).
  - discriminate.
  - discriminate.
  - left. vm_compute. reflexivity.
Defined.

(** X10.  A settings file that holds valid JSON which is not an object (a
    list, a string, a number, [true], [null]) is returned as it is by
    [_load_settings], and [__init__] then fails with an [AttributeError]
    that names the type of the value. *)
Theorem X10_settings_that_are_no_object_raise
    (json_loads : string -> exc + pyval) (enoent : string -> string)
    (m : Machine) (text : string) (v : pyval) :
  disk m !! settings_path (self m) = Some (Regular text) ->
  json_loads text = inr v ->
  (forall d, v <> PyDict d) ->
  fst (_load_settings json_loads enoent m) = inr v
  /\ fst (load_initial json_loads enoent m)
     = inl (Exc AttributeError
              ("'" +:+ type_name v +:+ "' object has no attribute 'get'")).
Proof.
  intros Hd Hj Hv.
  unfold load_initial, _load_settings, open_read; simpl.
  rewrite Hd, Hj. simpl. split; [reflexivity|].
  destruct v; try reflexivity. exfalso. eapply Hv. reflexivity.
Qed.

Lemma X10_witness :
  fst (load_initial (Scenario.json_loads_one "{dark_mode" (PyList []))
         Scenario.enoent Scenario.malformed_machine)
  = inl (Exc AttributeError "'list' object has no attribute 'get'").
Proof.
  refine (proj2 (X10_settings_that_are_no_object_raise
            (Scenario.json_loads_one "{dark_mode" (PyList [])) Scenario.enoent
            Scenario.malformed_machine "{dark_mode" (PyList []) _ _ _)).
  - vm_compute. reflexivity.
  - vm_compute. reflexivity.
  - intros d. discriminate.
Defined.

(** X11.  Loading never writes: whatever the file holds, the window and
    the disk are as before and the file was read once.  When the file holds
    an object, each of the two settings is taken from it on its own: a key
    that is missing gets its default, whatever else the object holds, and a
    value that is present is taken as it is, of whatever type. *)
Theorem X11_each_setting_defaults_on_its_own
    (json_loads : string -> exc + pyval) (enoent : string -> string)
    (m : Machine) (text : string) (d : list (string * pyval)) :
  snd (load_initial json_loads enoent m)
  = logc (FileRead (settings_path (self m))) m
  /\ (disk m !! settings_path (self m) = Some (Regular text) ->
      json_loads text = inr (PyDict d) ->
      fst (load_initial json_loads enoent m)
      = inr (match dict_lookup "exclusion_list" d with
             | Some v => v
             | None => PyStr (Py.join_lines default_exclusion_words)
             end,
             match dict_lookup "dark_mode" d with
             | Some v => v
             | None => PyBool false
             end)).
Proof.
  split.
  - unfold load_initial, _load_settings. simpl.
    destruct (open_read enoent _ (disk m)) as [e|t]; simpl.
    + destruct (exc_type e); reflexivity.
    + destruct (json_loads t) as [e|v]; simpl.
      * destruct (exc_type e); reflexivity.
      * destruct (get v _ _); [reflexivity|]. destruct (get v _ _); reflexivity.
  - intros Hd Hj. unfold load_initial, _load_settings, open_read; simpl.
    rewrite Hd, Hj. reflexivity.
Qed.

Lemma X11_witness :
  fst (load_initial
         (Scenario.json_loads_one "{dark_mode" (PyDict [("dark_mode", PyBool true)]))
         Scenario.enoent Scenario.malformed_machine)
  = inr (PyStr (Py.join_lines default_exclusion_words), PyBool true).
Proof.
  refine (proj2 (X11_each_setting_defaults_on_its_own
            (Scenario.json_loads_one "{dark_mode" (PyDict [("dark_mode", PyBool true)]))
            Scenario.enoent Scenario.malformed_machine "{dark_mode"
            [("dark_mode", PyBool true)]) _ _).
  - vm_compute. reflexivity.
  - vm_compute. reflexivity.
Defined.

(** X12.  [_save_settings] touches one path.  It never changes the
    window; every other file on disk is as before; on success the settings
    path holds the text of the document; when the path cannot be opened
    for writing the exception comes out and the disk is unchanged. *)
Theorem X12_save_touches_only_the_settings_file
    (json_dumps : pyval -> string) (m : Machine) :
  let r := fst (_save_settings json_dumps m) in
  let m1 := snd (_save_settings json_dumps m) in
  let doc := PyDict [ ("dark_mode", PyBool (dark_mode_switch (self m)));
                      ("exclusion_list", PyStr (Py.strip (text_get (self m)))) ] in
  self m1 = self m
  /\ (forall p, p <> settings_path (self m) -> disk m1 !! p = disk m !! p)
  /\ match r with
     | inr _ => disk m1 !! settings_path (self m) = Some (Regular (json_dumps doc))
                /\ forall e, disk m !! settings_path (self m) <> Some (Raises e)
     | inl e => disk m1 = disk m
                /\ disk m !! settings_path (self m) = Some (Raises e)
     end.
Proof.
  unfold _save_settings, open_write; simpl.
  destruct (disk m !! settings_path (self m)) as [[c|e]|] eqn:Hd; simpl;
    (split; [reflexivity|]); split;
    try (intros p Hp; now rewrite lookup_insert_ne by congruence);
    try (intros p Hp; reflexivity);
    try (split; [apply lookup_insert_eq | intros e'; congruence]).
  split; reflexivity.
Qed.

(** X13.  Trimming is idempotent, so what is saved does not depend on
    whether the text area was trimmed before: saving from a window whose
    exclusion text is already the trimmed text writes the same disk. *)
Theorem X13_saving_trimmed_text_writes_the_same
    (json_dumps : pyval -> string) (m : Machine) :
  Py.strip (Py.strip (exclusion_text (self m))) = Py.strip (exclusion_text (self m))
  /\ disk (snd (_save_settings json_dumps
                  (with_self (set_exclusion_text
                                (Py.strip (exclusion_text (self m))) (self m)) m)))
     = disk (snd (_save_settings json_dumps m))
  /\ fst (_save_settings json_dumps
            (with_self (set_exclusion_text
                          (Py.strip (exclusion_text (self m))) (self m)) m))
     = fst (_save_settings json_dumps m).
Proof.
  split; [apply PyExtra.strip_idem|].
  unfold _save_settings, open_write, text_get; simpl.
  rewrite !PyFacts.strip_app_LF, PyExtra.strip_idem.
  destruct (disk m !! settings_path (self m)) as [[c|e]|]; split; reflexivity.
Qed.

(** X14.  Every custom stop word handed to the word-cloud library is
    non-empty, in lower case, and free of leading and trailing whitespace,
    whatever the text area holds. *)
Theorem X14_custom_words_are_trimmed_lower_case (text x : string) :
  x ∈ custom_exclusion_list text ->
  x <> "" /\ Py.lower x = x /\ Py.strip x = x.
Proof.
  unfold custom_exclusion_list.
  rewrite list_elem_of_In, in_map_iff.
  intros (line & <- & Hin). apply list_elem_of_In in Hin.
  apply list_elem_of_filter in Hin as [Ht _].
  apply Is_true_true, PyFacts.truthy_true in Ht.
  split; [|split].
  - intros H. apply PyExtra.lower_empty in H. contradiction.
  - apply PyExtra.lower_idem.
  - now rewrite PyExtra.strip_lower, PyExtra.strip_idem.
Qed.

Lemma X14_witness :
  "dog" <> "" /\ Py.lower "dog" = "dog" /\ Py.strip "dog" = "dog".
Proof.
  apply (X14_custom_words_are_trimmed_lower_case
           (text_get (self Scenario.ready_machine)) "dog").
  vm_compute. apply list_elem_of_In. right. left. reflexivity.
Defined.

Lemma custom_of_blank (a : WordCloudApp) :
  Py.blank (exclusion_text a) = true -> custom_exclusion_list (text_get a) = [].
Proof.
  intros Hb. apply elem_of_nil_inv. intros x Hx.
  apply AppFacts.elem_of_custom_exclusion_list in Hx as (line & Hin & Hs & _).
  pose proof (PyExtra.blank_lines _ Hb) as Hall.
  rewrite Forall_forall in Hall. specialize (Hall line Hin).
  apply PyFacts.truthy_true in Hs.
  rewrite AppFacts.truthy_strip, Hall in Hs. discriminate.
Qed.

(** X15.  When the exclusion text is empty or holds only whitespace, in
    particular after [Clear], a run that reads its input hands the
    word-cloud library the standard stop words and nothing else. *)
Theorem X15_blank_text_gives_standard_stopwords
    {Image : Type} (STOPWORDS : gset string)
    (WordCloud_generate : WordCloudArgs -> string -> exc + Image)
    (plt_savefig : Image -> string -> gmap string fentry
                   -> exc + gmap string fentry)
    (enoent : string -> string) (m : Machine) (text : string) :
  open_read enoent (input_file_path (self m)) (disk m) = inr text ->
  (Py.blank (exclusion_text (self m)) = true ->
   wordcloud_calls
     (new_calls m (_threaded_generate STOPWORDS WordCloud_generate
                     plt_savefig enoent m))
   = [ (mkArgs STOPWORDS "white" 1600 800 200 false, text) ])
  /\ wordcloud_calls
       (new_calls (clear_exclusion_list m)
          (_threaded_generate STOPWORDS WordCloud_generate plt_savefig enoent
             (clear_exclusion_list m)))
     = [ (mkArgs STOPWORDS "white" 1600 800 200 false, text) ].
Proof.
  intros Hread.
  assert (H : forall m0 : Machine,
             open_read enoent (input_file_path (self m0)) (disk m0) = inr text ->
             Py.blank (exclusion_text (self m0)) = true ->
             wordcloud_calls
               (new_calls m0 (_threaded_generate STOPWORDS WordCloud_generate
                                plt_savefig enoent m0))
             = [ (mkArgs STOPWORDS "white" 1600 800 200 false, text) ]).
  { intros m0 Hr Hb. rewrite AppFacts.worker_new_calls. unfold worker_calls.
    rewrite Hr, (custom_of_blank _ Hb), list_to_set_nil, union_empty_r_L.
    destruct (WordCloud_generate _ text); reflexivity. }
  split; [apply H; exact Hread|].
  apply H; [exact Hread | reflexivity].
Qed.

Lemma X15_witness :
  wordcloud_calls
    (new_calls (clear_exclusion_list Scenario.ready_machine)
       (_threaded_generate Scenario.STOPWORDS Scenario.WordCloud_generate
          Scenario.plt_savefig Scenario.enoent
          (clear_exclusion_list Scenario.ready_machine)))
  = [ (mkArgs Scenario.STOPWORDS "white" 1600 800 200 false, "cat cat dog") ].
Proof.
  refine (proj2 (X15_blank_text_gives_standard_stopwords
            Scenario.STOPWORDS Scenario.WordCloud_generate Scenario.plt_savefig
            Scenario.enoent Scenario.ready_machine "cat cat dog" _)).
  vm_compute. reflexivity.
Defined.

Lemma update_log (m : Machine) :
  exists rest,
    log (_update_generate_button_state m) = log m ++ rest
    /\ forallb (fun tc => is_var_get (snd tc)) rest = true.
Proof.
  unfold _update_generate_button_state; simpl.
  destruct (Py.truthy (input_file_path (self m))); simpl;
    [destruct (Py.truthy (output_file_path (self m))); simpl|];
    eexists; (split; [rewrite <- ?app_assoc; reflexivity | reflexivity]).
Qed.

Lemma update_rest (m : Machine) :
  exclusion_text (self (_update_generate_button_state m)) = exclusion_text (self m)
  /\ status_label (self (_update_generate_button_state m)) = status_label (self m)
  /\ disk (_update_generate_button_state m) = disk m.
Proof.
  unfold _update_generate_button_state; simpl.
  destruct (Py.truthy (input_file_path (self m))); simpl;
    [destruct (Py.truthy (output_file_path (self m))); simpl|];
    repeat split.
Qed.

(** X16.  Starting a generation disables the generate button and sets the
    status to [Status: Processing...], whatever the paths are.  When the
    result arrives, the status names the saved path or the error, one
    dialog is shown first (information for a success, error for a
    failure), and the button is enabled again exactly when both paths are
    non-empty; the paths, the exclusion text and the disk are untouched. *)
Theorem X16_completion_restores_the_button (r : result) (m : Machine) :
  let ms := start_generation_thread m in
  let mc := on_generation_complete r m in
  RoundedButton.disabled (generate_button (self ms)) = true
  /\ status_label (self ms) = "Status: Processing..."
  /\ (RoundedButton.disabled (generate_button (self mc)) = false
      <-> input_file_path (self m) <> "" /\ output_file_path (self m) <> "")
  /\ status_label (self mc)
     = match r with
       | Success path => "Status: Success! Saved to " +:+ path
       | Error message => "Status: Error - " +:+ message
       end
  /\ (exists rest,
        new_calls m mc
        = (current m,
           match r with
           | Success path =>
               ShowInfo "Success"
                 ("Word cloud saved successfully to:" +:+ String Py.LF path)
           | Error message =>
               ShowError "Error" ("An unexpected error occurred: " +:+ message)
           end) :: rest
        /\ forallb (fun tc => is_var_get (snd tc)) rest = true)
  /\ input_file_path (self mc) = input_file_path (self m)
  /\ output_file_path (self mc) = output_file_path (self m)
  /\ exclusion_text (self mc) = exclusion_text (self m)
  /\ disk mc = disk m.
Proof.
  intros ms mc. subst ms mc.
  split; [apply ButtonFacts.disabled_disable|].
  split; [reflexivity|].
  unfold on_generation_complete.
  set (m1 := match r with
             | Success path => logc _ _
             | Error message => logc _ _
             end).
  pose proof (AppFacts.enabled_iff m1) as He.
  pose proof (AppFacts.update_paths m1) as [Hi Ho].
  pose proof (update_rest m1) as (Ht & Hs & Hd).
  destruct (update_log m1) as (rest & Hlog & Hrest).
  rewrite Hi, Ho, Ht, Hs, Hd.
  assert (Hm1 : self m1 = set_status (status_label (self m1)) (self m)
                /\ disk m1 = disk m
                /\ log m1 = log m ++ [(current m,
                     match r with
                     | Success path =>
                         ShowInfo "Success"
                           ("Word cloud saved successfully to:" +:+ String Py.LF path)
                     | Error message =>
                         ShowError "Error"
                           ("An unexpected error occurred: " +:+ message)
                     end)]
                /\ status_label (self m1)
                   = match r with
                     | Success path => "Status: Success! Saved to " +:+ path
                     | Error message => "Status: Error - " +:+ message
                     end)
    by (subst m1; destruct r; repeat split).
  destruct Hm1 as (Hself & Hdisk & Hlog1 & Hstat).
  split.
  { rewrite He, Hself. reflexivity. }
  split; [exact Hstat|].
  split.
  { exists rest. split; [|exact Hrest].
    apply AppFacts.new_calls_app. rewrite Hlog, Hlog1, <- app_assoc. reflexivity. }
  rewrite Hself, Hdisk. repeat split.
Qed.

(** X17.  The worker never changes the window: the paths, the texts, the
    labels and the button are after the run what they were before it.  A
    run that fails before anything is saved, because the input cannot be
    read or the word-cloud library raises, leaves the disk as it was. *)
Theorem X17_worker_leaves_the_window_alone
    {Image : Type} (STOPWORDS : gset string)
    (WordCloud_generate : WordCloudArgs -> string -> exc + Image)
    (plt_savefig : Image -> string -> gmap string fentry
                   -> exc + gmap string fentry)
    (enoent : string -> string) (m : Machine) :
  let m' := _threaded_generate STOPWORDS WordCloud_generate plt_savefig enoent m in
  self m' = self m
  /\ current m' = current m
  /\ (forall e, open_read enoent (input_file_path (self m)) (disk m) = inl e ->
                disk m' = disk m)
  /\ (forall text e,
        open_read enoent (input_file_path (self m)) (disk m) = inr text ->
        WordCloud_generate
          (mkArgs (STOPWORDS ∪ list_to_set (custom_exclusion_list (text_get (self m))))
                  "white" 1600 800 200 false) text = inl e ->
        disk m' = disk m).
Proof.
  unfold _threaded_generate, generate_word_cloud; simpl.
  destruct (open_read enoent (input_file_path (self m)) (disk m)) as [e|text];
    simpl.
  { repeat split; intros; congruence. }
  destruct (WordCloud_generate _ text) as [e|img] eqn:Hw; simpl.
  { repeat split; intros; congruence. }
  destruct (plt_savefig img _ (disk m)) as [e|d]; simpl;
    (split; [reflexivity|]); (split; [reflexivity|]);
    (split; [intros; congruence|]);
    intros text' e' [= <-] Hw'; rewrite Hw in Hw'; discriminate.
Qed.

Lemma X17_witness :
  disk (_threaded_generate Scenario.STOPWORDS Scenario.WordCloud_generate
          Scenario.plt_savefig Scenario.enoent Scenario.input_gone_machine)
  = disk Scenario.input_gone_machine.
Proof.
  refine (proj1 (proj2 (proj2 (X17_worker_leaves_the_window_alone
            Scenario.STOPWORDS Scenario.WordCloud_generate Scenario.plt_savefig
            Scenario.enoent Scenario.input_gone_machine)))
            (Exc FileNotFoundError (Scenario.enoent "notes.txt")) _).
  vm_compute. reflexivity.
Defined.

(** X18.  The button that a running generation disabled does not stay
    disabled for the run: choosing an input file, or an output path, while
    the other path is set runs the enablement update and enables the
    button again before any result has arrived. *)
Theorem X18_choosing_a_file_re_enables_during_a_run
    (path : string) (m : Machine) :
  path <> "" ->
  (output_file_path (self m) <> "" ->
   RoundedButton.disabled
     (generate_button (self (select_input_file path (start_generation_thread m))))
   = false)
  /\ (input_file_path (self m) <> "" ->
      RoundedButton.disabled
        (generate_button (self (set_output_file path (start_generation_thread m))))
      = false).
Proof.
  intros Hp. pose proof Hp as Hp'. apply PyFacts.truthy_true in Hp.
  unfold select_input_file, set_output_file. rewrite Hp.
  split; intros Ho; apply AppFacts.enabled_iff; simpl; split; assumption.
Qed.

Lemma X18_witness :
  RoundedButton.disabled
    (generate_button
       (self (select_input_file "other.txt"
                (start_generation_thread Scenario.ready_machine)))) = false.
Proof.
  refine (proj1 (X18_choosing_a_file_re_enables_during_a_run
                   "other.txt" Scenario.ready_machine _) _); discriminate.
Defined.

(** X19.  Closing the window destroys it only after the settings were
    written.  When the settings path cannot be opened for writing the
    handler ends before [destroy]: the window stays open and the disk is
    unchanged.  Otherwise the window is destroyed with the document on
    disk. *)
Theorem X19_window_closes_only_after_saving
    (json_dumps : pyval -> string) (m : Machine) :
  let doc := PyDict [ ("dark_mode", PyBool (dark_mode_switch (self m)));
                      ("exclusion_list", PyStr (Py.strip (text_get (self m)))) ] in
  match disk m !! settings_path (self m) with
  | Some (Raises e) =>
      fst (Closing._on_closing json_dumps m) = Closing.StillOpen
      /\ disk (snd (Closing._on_closing json_dumps m)) = disk m
  | _ =>
      fst (Closing._on_closing json_dumps m) = Closing.Destroyed
      /\ disk (snd (Closing._on_closing json_dumps m)) !! settings_path (self m)
         = Some (Regular (json_dumps doc))
  end.
Proof.
  unfold Closing._on_closing, _save_settings, open_write; simpl.
  destruct (disk m !! settings_path (self m)) as [[c|e]|]; simpl;
    split; try reflexivity; apply lookup_insert_eq.
Qed.

(** X20.  Words without line feeds that are joined with newlines and put
    in the text area are read back one per line: splitting the joined text
    gives the words again, and the custom stop words of a run are the
    words that are not blank, each trimmed and in lower case, in order. *)
Theorem X20_joined_words_are_read_back
    (ws : list string) (a : WordCloudApp) :
  forallb Trace.one_line ws = true ->
  (ws <> [] -> Py.split_lines (Py.join_lines ws) = ws)
  /\ custom_exclusion_list
       (text_get (set_exclusion_text (Py.join_lines ws) a))
     = map (fun word => Py.lower (Py.strip word))
           (filter (fun word => Is_true (Py.truthy (Py.strip word))) ws).
Proof.
  intros H. split; [intros Hne; now apply PyExtra.split_join|].
  unfold custom_exclusion_list, text_get; simpl.
  rewrite AppFacts.split_lines_app_LF, filter_app.
  destruct ws as [|w ws']; [reflexivity|].
  rewrite PyExtra.split_join by (congruence || exact H).
  assert (Hlast : filter (fun word => Is_true (Py.truthy (Py.strip word)))
                         [EmptyString] = []) by reflexivity.
  now rewrite Hlast, app_nil_r.
Qed.

Lemma X20_witness :
  Py.split_lines (Py.join_lines default_exclusion_words) = default_exclusion_words.
Proof.
  refine (proj1 (X20_joined_words_are_read_back default_exclusion_words
                   (self Scenario.fresh_machine) _) _).
  - vm_compute. reflexivity.
  - discriminate.
Defined.

End AppExtra.
